(** * Interactive DrQA pipeline front end: query operation and renderer

    A shallow embedding of [scripts/pipeline_transformers/interactive.py]:
    start-up (the options and their defaults, the CUDA decision, the
    construction of the pipeline), the [process] command (backend call,
    latency log, summary table, highlighted contexts), the [usage]
    command and the namespace handed to the interactive console.

    Python values are modelled dynamically ([pyval]); a prediction is a
    [dict] with string keys, modelled as stdpp's [gmap string pyval].
    A Python [float] is an IEEE-754 binary64, i.e. Rocq's primitive
    [float].  Exceptions, the log, the display and the calls made to the
    backend are threaded explicitly through a state-and-exception monad. *)

From Stdlib Require Import ZArith String Ascii List Lia.
From Stdlib Require Import Floats.PrimFloat.
From stdpp Require Import gmap strings pretty list fin_maps.

Set Warnings "-register-all".

Local Open Scope string_scope.
Local Open Scope Z_scope.
Local Open Scope list_scope.

(* ===================================================================== *)
(** ** Python values, exceptions *)
(* ===================================================================== *)

Inductive pyval : Type :=
| PyNone
| PyInt (z : Z)
| PyFloat (f : float)
| PyStr (s : string)
| PyDict (d : gmap string pyval).

(** The exceptions that can travel through [process]: the two the
    renderer's own subscripting can raise, and whatever the backend
    raises (named by its class). *)
Inductive exn : Type :=
| KeyError (key : string)
| TypeError
| Exception (name : string).

Inductive result (A : Type) : Type :=
| Ok (a : A)
| Raise (e : exn).
Arguments Ok {A} a.
Arguments Raise {A} e.

(* ===================================================================== *)
(** ** Strings: Python slicing *)
(* ===================================================================== *)

Definition newline : string := String "010"%char EmptyString.

Fixpoint str_take (n : nat) (s : string) : string :=
  match n, s with
  | S n', String c s' => String c (str_take n' s')
  | _, _ => EmptyString
  end.

Fixpoint str_drop (n : nat) (s : string) : string :=
  match n, s with
  | S n', String _ s' => str_drop n' s'
  | _, _ => s
  end.

(** How CPython turns one bound of [s[lo:hi]] into a position of [s]:
    a negative bound counts from the end, and every bound is clamped
    to [0 .. len]. *)
Definition adjust_index (len i : Z) : Z :=
  if i <? 0 then Z.max 0 (i + len) else Z.min i len.

(** [s[lo:hi]]; an omitted bound is [None].  When the adjusted bounds
    cross, the slice is empty ([Z.to_nat] of a negative length is 0). *)
Definition py_slice (s : string) (lo hi : option Z) : string :=
  let len := Z.of_nat (String.length s) in
  let a := match lo with Some i => adjust_index len i | None => 0 end in
  let b := match hi with Some j => adjust_index len j | None => len end in
  str_take (Z.to_nat (b - a)) (str_drop (Z.to_nat a) s).

(* ===================================================================== *)
(** ** The table, the display, the world *)
(* ===================================================================== *)

(** [prettytable.PrettyTable]: the field names and the rows added.
    [add_row] appends a row; the script's rows have five values, as
    many as the table has field names. *)
Record PrettyTable : Type := Table {
  field_names : list string;
  rows : list (list pyval)
}.

Definition add_row (t : PrettyTable) (row : list pyval) : PrettyTable :=
  {| field_names := field_names t; rows := rows t ++ [row] |}.

(** One entry per call of [print]: its argument (print ends the line). *)
Inductive printed : Type :=
| PrintStr (s : string)
| PrintTable (t : PrettyTable).

(** One entry per call of [pipeline.process]. *)
Record backend_call : Type := Call {
  call_question : pyval;
  call_top_n : pyval;
  call_n_docs : pyval;
  call_return_context : bool
}.

(** What happened, in the order it happened: a reading of the clock, a
    call of [pipeline.process], a record logged, a call of [print]. *)
Inductive event : Type :=
| ClockRead
| BackendCall
| LogRecord
| Printed.

Record world : Type := World {
  clock_reads : nat;                 (* readings of time.time() so far *)
  backend_calls : list backend_call; (* calls of pipeline.process so far *)
  log : list string;                 (* records sent through logger.info *)
  stdout : list printed;             (* what print has written *)
  trace : list event                 (* all of these, in order *)
}.

Definition initial_world : world :=
  {| clock_reads := 0; backend_calls := []; log := []; stdout := [];
     trace := [] |}.

(* ===================================================================== *)
(** ** State-and-exception monad *)
(* ===================================================================== *)

Module Py.

Definition M (A : Type) : Type := world -> result A * world.

Definition ret {A} (a : A) : M A := fun w => (Ok a, w).

Definition bind {A B} (m : M A) (k : A -> M B) : M B :=
  fun w =>
    match m w with
    | (Ok a, w') => k a w'
    | (Raise e, w') => (Raise e, w')
    end.

Definition lift {A} (r : result A) : M A := fun w => (r, w).

(** [for x in l: body] with the loop's mutable object [acc]. *)
Fixpoint for_fold {A S} (l : list A) (body : S -> A -> M S) (acc : S) : M S :=
  match l with
  | [] => ret acc
  | x :: l' => bind (body acc x) (for_fold l' body)
  end.

Fixpoint for_each {A} (l : list A) (body : A -> M unit) : M unit :=
  match l with
  | [] => ret tt
  | x :: l' => bind (body x) (fun _ => for_each l' body)
  end.

End Py.

Declare Scope py_scope.
Delimit Scope py_scope with py.
Notation "x <- m ;; k" := (Py.bind m (fun x => k))
  (at level 100, m at next level, right associativity) : py_scope.
Notation "m ;; k" := (Py.bind m (fun _ => k))
  (at level 100, right associativity) : py_scope.
Local Open Scope py_scope.

(** [obj[key]] for a string key: only a dict can be subscripted so. *)
Definition getitem (obj : pyval) (key : string) : result pyval :=
  match obj with
  | PyDict d =>
      match d !! key with
      | Some v => Ok v
      | None => Raise (KeyError key)
      end
  | _ => Raise TypeError
  end.

(** A slice bound must be an integer or [None]. *)
Definition slice_bound (v : pyval) : result (option Z) :=
  match v with
  | PyInt z => Ok (Some z)
  | PyNone => Ok None
  | _ => Raise TypeError
  end.

(** [enumerate(l, start)]. *)
Fixpoint enumerate {A} (l : list A) (start : Z) : list (Z * A) :=
  match l with
  | [] => []
  | x :: l' => (start, x) :: enumerate l' (start + 1)
  end.

(** Writing to the display appends to it and touches nothing else. *)
Definition emit (items : list printed) (w : world) : world :=
  {| clock_reads := clock_reads w; backend_calls := backend_calls w;
     log := log w; stdout := stdout w ++ items;
     trace := trace w ++ map (fun _ => Printed) items |}.

(** [print(s)] for a str, and [print(table)]. *)
Definition print_str (s : string) : Py.M unit :=
  fun w => (Ok tt, emit [PrintStr s] w).

Definition print_table (t : PrettyTable) : Py.M unit :=
  fun w => (Ok tt, emit [PrintTable t] w).

Definition logger_info (msg : string) : Py.M unit :=
  fun w => (Ok tt, {| clock_reads := clock_reads w; backend_calls := backend_calls w;
                      log := log w ++ [msg]; stdout := stdout w;
                      trace := trace w ++ [LogRecord] |}).

(* ===================================================================== *)
(** ** Start-up: the retriever option selects pipeline and default *)
(* ===================================================================== *)

(** [--retriever], restricted by argparse to these two choices. *)
Inductive retriever_choice : Type :=
| tfidf          (* 'tfidf' *)
| serini_bm25.   (* 'serini-bm25', the option's default *)

Inductive pipeline_class : Type :=
| DrQATransformers
| PyseriniTransformersQA.

Definition pipeline_of (retriever : retriever_choice) : pipeline_class :=
  match retriever with
  | tfidf => DrQATransformers
  | serini_bm25 => PyseriniTransformersQA
  end.

Definition n_docs_default (retriever : retriever_choice) : Z :=
  match retriever with
  | tfidf => 5
  | serini_bm25 => 30
  end.

(** What the script takes from outside: the wall clock, the two
    pipelines' [process] methods, C's number formatting, [str()] of a
    value that is not a string, and termcolor's [colored]. *)
Record runtime : Type := Runtime {
  (* the value returned by the k-th reading of time.time() *)
  time_time : nat -> float;
  (* pipeline.process(question, top_n, n_docs, return_context=..) of the
     pipeline built at start-up; the first argument is the number of
     calls made before this one *)
  pipeline_process :
    pipeline_class -> nat -> pyval -> pyval -> pyval -> bool -> result (list pyval);
  fmt_4f : float -> string;          (* '%.4f' % x *)
  fmt_5g : float -> string;          (* '%.5g' % x *)
  int_to_float : Z -> result float;  (* float(n); OverflowError when too large *)
  py_repr : pyval -> string;         (* str(v) for v not a str *)
  colored : string -> string -> list string -> string
}.

(* ===================================================================== *)
(** ** The interactive commands *)
(* ===================================================================== *)

Section Interactive.

Variable rt : runtime.
Variable retriever : retriever_choice.   (* args.retriever *)

(** [time.time()] *)
Definition now : Py.M float :=
  fun w => (Ok (time_time rt (clock_reads w)),
            {| clock_reads := S (clock_reads w); backend_calls := backend_calls w;
               log := log w; stdout := stdout w;
               trace := trace w ++ [ClockRead] |}).

(** [pipeline.process(question, top_n, n_docs, return_context=rc)] *)
Definition call_pipeline (question top_n n_docs : pyval) (rc : bool)
  : Py.M (list pyval) :=
  fun w => (pipeline_process rt (pipeline_of retriever)
              (length (backend_calls w)) question top_n n_docs rc,
            {| clock_reads := clock_reads w;
               backend_calls :=
                 backend_calls w ++ [Call question top_n n_docs rc];
               log := log w; stdout := stdout w;
               trace := trace w ++ [BackendCall] |}).

(** ['%.5g' % v]: a real number is required. *)
Definition percent_5g (v : pyval) : result string :=
  match v with
  | PyFloat f => Ok (fmt_5g rt f)
  | PyInt z =>
      match int_to_float rt z with
      | Ok f => Ok (fmt_5g rt f)
      | Raise e => Raise e
      end
  | _ => Raise TypeError
  end.

(** ['%s' % v] *)
Definition percent_s (v : pyval) : string :=
  match v with
  | PyStr s => s
  | _ => py_repr rt v
  end.

(** [text[lo:hi]], an omitted bound being [None]; only a str is
    sliced here. *)
Definition str_slice (text lo hi : pyval) : result string :=
  match text with
  | PyStr s =>
      match slice_bound lo, slice_bound hi with
      | Ok a, Ok b => Ok (py_slice s a b)
      | _, _ => Raise TypeError
      end
  | _ => Raise TypeError
  end.

Definition table_header : list string :=
  ["Rank"; "Answer"; "Doc"; "Answer Score"; "Doc Score"].

(** Body of [for i, p in enumerate(predictions, 1)]. *)
Definition add_prediction_row (table : PrettyTable) (ip : Z * pyval)
  : Py.M PrettyTable :=
  let (i, p) := ip in
  span <- Py.lift (getitem p "span") ;;
  doc_id <- Py.lift (getitem p "doc_id") ;;
  span_score <- Py.lift (getitem p "span_score") ;;
  answer_score <- Py.lift (percent_5g span_score) ;;
  doc_score <- Py.lift (getitem p "doc_score") ;;
  doc_score <- Py.lift (percent_5g doc_score) ;;
  Py.ret (add_row table
            [PyInt i; span; doc_id; PyStr answer_score; PyStr doc_score]).

(** Body of [for p in predictions]. *)
Definition render_context (p : pyval) : Py.M unit :=
  context <- Py.lift (getitem p "context") ;;
  text <- Py.lift (getitem context "text") ;;
  context <- Py.lift (getitem p "context") ;;
  start <- Py.lift (getitem context "start") ;;
  context <- Py.lift (getitem p "context") ;;
  end_ <- Py.lift (getitem context "end") ;;
  before <- Py.lift (str_slice text PyNone start) ;;
  answer <- Py.lift (str_slice text start end_) ;;
  after <- Py.lift (str_slice text end_ PyNone) ;;
  let output := before +:+ colored rt answer "green" ["bold"] +:+ after in
  doc_id <- Py.lift (getitem p "doc_id") ;;
  print_str ("[ Doc = " +:+ percent_s doc_id +:+ " ]") ;;
  print_str (output +:+ newline).

(** [def process(question, top_n=3, n_docs=n_docs_default)]; an
    argument the caller omits is [None] here. *)
Definition process (question : pyval) (top_n n_docs : option pyval)
  : Py.M unit :=
  let top_n := default (PyInt 3) top_n in
  let n_docs := default (PyInt (n_docs_default retriever)) n_docs in
  t0 <- now ;;
  predictions <- call_pipeline question top_n n_docs true ;;
  t1 <- now ;;
  logger_info ("Processed 1 query in " +:+ fmt_4f rt (PrimFloat.sub t1 t0) +:+ " (s)") ;;
  table <- Py.for_fold (enumerate predictions 1) add_prediction_row
             {| field_names := table_header; rows := [] |} ;;
  print_str "Top Predictions:" ;;
  print_table table ;;
  print_str (newline +:+ "Contexts:") ;;
  Py.for_each predictions render_context.

End Interactive.

Definition banner : string :=
  newline +:+
  "    Interactive DrQA" +:+ newline +:+
  "    >> process(question, top_n=1, n_docs=5)" +:+ newline +:+
  "    >> usage()" +:+ newline +:+
  "    ".

(** [def usage(): print(banner)] *)
Definition usage : Py.M unit := print_str banner.

(* ===================================================================== *)
(** ** The console's namespace *)
(* ===================================================================== *)

(** What a top-level name of the script is bound to when the console
    starts, and by which statement. *)
Inductive object_kind : Type :=
| AModule | AFunction | AClass | AnInstance | AStr | AnInt.

Inductive bound_by : Type :=
| ByImport | ByAssignment | ByDef.

(** A function and a class can be called; the script itself calls
    [colored(..)], [DrQATransformers(..)] and [PyseriniTransformersQA(..)]. *)
Definition callable (k : object_kind) : bool :=
  match k with
  | AFunction | AClass => true
  | _ => false
  end.

(** [locals()] at the last line of the script: the names its statements
    have bound, in order of binding. *)
Definition script_locals : list (string * bound_by * object_kind) :=
  [ ("os", ByImport, AModule);
    ("torch", ByImport, AModule);
    ("argparse", ByImport, AModule);
    ("code", ByImport, AModule);
    ("prettytable", ByImport, AModule);
    ("logging", ByImport, AModule);
    ("time", ByImport, AModule);
    ("colored", ByImport, AFunction);
    ("DrQATransformers", ByImport, AClass);
    ("PyseriniTransformersQA", ByImport, AClass);
    ("logger", ByAssignment, AnInstance);
    ("fmt", ByAssignment, AnInstance);
    ("console", ByAssignment, AnInstance);
    ("parser", ByAssignment, AnInstance);
    ("args", ByAssignment, AnInstance);
    ("pipeline", ByAssignment, AnInstance);
    ("n_docs_default", ByAssignment, AnInt);
    ("process", ByDef, AFunction);
    ("banner", ByAssignment, AStr);
    ("usage", ByDef, AFunction) ].

(** [code.interact(banner=banner, local=locals())]: the console
    evaluates the operator's input in exactly this namespace. *)
Definition console_namespace : list (string * bound_by * object_kind) :=
  script_locals.

Definition exposed_callables : list string :=
  map (fun e => fst (fst e))
      (List.filter (fun e => callable (snd e)) console_namespace).

Definition defined_commands : list string :=
  map (fun e => fst (fst e))
      (List.filter (fun e => match snd (fst e) with ByDef => true | _ => false end)
              console_namespace).


(* ===================================================================== *)
(** ** Predictions as the renderer reads them *)
(* ===================================================================== *)

(** The keys [process] reads from a prediction: [span], [doc_id],
    [span_score], [doc_score] and, under [context], [text], [start] and
    [end].  [other_fields] stands for whatever else the backend put in
    the dict; [context = None] is a dict without the key [context]. *)
Record context_window : Type := Window {
  ctx_text : string;
  ctx_start : Z;
  ctx_end : Z
}.

Record answer_span : Type := Span {
  span : pyval;
  doc_id : pyval;
  span_score : float;
  doc_score : float;
  context : option context_window;
  other_fields : gmap string pyval
}.

Definition context_dict (c : context_window) : pyval :=
  PyDict (<["text" := PyStr (ctx_text c)]>
         (<["start" := PyInt (ctx_start c)]>
         (<["end" := PyInt (ctx_end c)]> ∅))).

Definition prediction_of (a : answer_span) : pyval :=
  PyDict (<["span" := span a]>
         (<["doc_id" := doc_id a]>
         (<["span_score" := PyFloat (span_score a)]>
         (<["doc_score" := PyFloat (doc_score a)]>
         (match context a with
          | Some c => <["context" := context_dict c]> (other_fields a)
          | None => delete "context" (other_fields a)
          end))))).

(** The offsets are valid for the text: [0 <= start <= end <= len(text)]. *)
Definition valid_offsets (c : context_window) : Prop :=
  0 <= ctx_start c /\ ctx_start c <= ctx_end c
  /\ ctx_end c <= Z.of_nat (String.length (ctx_text c)).

(* ===================================================================== *)
(** ** What a run leaves behind *)
(* ===================================================================== *)

(** [w'] differs from [w] by output appended to the display. *)
Definition prints_only (w w' : world) : Prop :=
  exists items, w' = emit items w.

Section Observations.

Variable rt : runtime.
Variable retriever : retriever_choice.

(** Everything [process] does after the latency record: table,
    headings and context views. *)
Definition render_predictions (predictions : list pyval) : Py.M unit :=
  table <- Py.for_fold (enumerate predictions 1) (add_prediction_row rt)
             {| field_names := table_header; rows := [] |} ;;
  print_str "Top Predictions:" ;;
  print_table table ;;
  print_str (newline +:+ "Contexts:") ;;
  Py.for_each predictions (render_context rt).

(** The table row of the [i]-th answer span. *)
Definition span_row (i : Z) (a : answer_span) : list pyval :=
  [PyInt i; span a; doc_id a;
   PyStr (fmt_5g rt (span_score a)); PyStr (fmt_5g rt (doc_score a))].

Definition span_rows (i : Z) (spans : list answer_span) : list (list pyval) :=
  map (fun ia => span_row (fst ia) (snd ia)) (enumerate spans i).

(** The two lines printed for an answer span with its context. *)
Definition context_view (a : answer_span) (c : context_window) : list printed :=
  [PrintStr ("[ Doc = " +:+ percent_s rt (doc_id a) +:+ " ]");
   PrintStr ((py_slice (ctx_text c) None (Some (ctx_start c))
              +:+ colored rt (py_slice (ctx_text c) (Some (ctx_start c))
                                (Some (ctx_end c))) "green" ["bold"]
              +:+ py_slice (ctx_text c) (Some (ctx_end c)) None)
             +:+ newline)].

Definition context_views (spans : list answer_span) : list printed :=
  flat_map (fun a => match context a with
                     | Some c => context_view a c
                     | None => []
                     end) spans.

(** The heading, the table and the second heading. *)
Definition summary (spans : list answer_span) : list printed :=
  [PrintStr "Top Predictions:";
   PrintTable {| field_names := table_header; rows := span_rows 1 spans |};
   PrintStr (newline +:+ "Contexts:")].

(** What the backend answers to the call [process] makes in [w]. *)
Definition backend_answer (question top_n n_docs : pyval) (w : world)
  : result (list pyval) :=
  pipeline_process rt (pipeline_of retriever) (length (backend_calls w))
    question top_n n_docs true.

(** The world once the backend call has been made: the clock was read
    once before it and the call is on record. *)
Definition after_backend_call (question top_n n_docs : pyval) (w : world)
  : world :=
  {| clock_reads := S (clock_reads w);
     backend_calls := backend_calls w ++ [Call question top_n n_docs true];
     log := log w; stdout := stdout w;
     trace := (trace w ++ [ClockRead]) ++ [BackendCall] |}.

(** The record [process] logs: the second clock reading minus the first. *)
Definition latency_record (w : world) : string :=
  "Processed 1 query in "
  +:+ fmt_4f rt (PrimFloat.sub (time_time rt (S (clock_reads w)))
                               (time_time rt (clock_reads w)))
  +:+ " (s)".

Definition after_latency_record (question top_n n_docs : pyval) (w : world)
  : world :=
  {| clock_reads := S (S (clock_reads w));
     backend_calls := backend_calls w ++ [Call question top_n n_docs true];
     log := log w ++ [latency_record w]; stdout := stdout w;
     trace := (((trace w ++ [ClockRead]) ++ [BackendCall]) ++ [ClockRead])
              ++ [LogRecord] |}.

End Observations.

(* ===================================================================== *)
(** ** Concrete runs *)
(* ===================================================================== *)

Definition esc : string := String "027"%char EmptyString.

(** termcolor's output for green, bold text: the two escape sequences,
    the text, the reset sequence. *)
Definition ansi_colored (s color : string) (attrs : list string) : string :=
  esc +:+ "[1m" +:+ esc +:+ "[32m" +:+ s +:+ esc +:+ "[0m".

(** A runtime whose backend answers its k-th call with [answer k]; the
    clock reads 10.25 s, then 12.5 s. *)
Definition scripted_runtime (answer : nat -> result (list pyval)) : runtime :=
  {| time_time := fun k => match k with O => 10.25%float | _ => 12.5%float end;
     pipeline_process := fun _ k _ _ _ _ => answer k;
     fmt_4f := fun _ => "2.2500";
     fmt_5g := fun x => if PrimFloat.eqb x 0.75%float then "0.75" else "12.5";
     int_to_float := fun _ => Raise (Exception "OverflowError");
     py_repr := fun _ => "None";
     colored := ansi_colored |}.

Definition paris_window : context_window :=
  {| ctx_text := "The capital of France is Paris.";
     ctx_start := 25; ctx_end := 30 |}.

Definition paris : answer_span :=
  {| span := PyStr "Paris"; doc_id := PyStr "France";
     span_score := 0.75%float; doc_score := 12.5%float;
     context := Some paris_window;
     other_fields := {[ "rank" := PyInt 7 ]} |}.

(** The same span as a backend leaves it with [return_context=False]. *)
Definition paris_bare : answer_span :=
  {| span := PyStr "Paris"; doc_id := PyStr "France";
     span_score := 0.75%float; doc_score := 12.5%float;
     context := None;
     other_fields := {[ "rank" := PyInt 7 ]} |}.

Definition capital_question : pyval := PyStr "What is the capital of France?".

(** A backend that finds no document at the first call and would answer
    a second one. *)
Definition failing_once (k : nat) : result (list pyval) :=
  match k with
  | O => Raise (Exception "RetrievalError")
  | S _ => Ok [prediction_of paris]
  end.

(** A backend that always returns the same predictions. *)
Definition answering (spans : list answer_span) (k : nat) : result (list pyval) :=
  Ok (map prediction_of spans).
(* ===================================================================== *)
(** ** The row of a prediction; queries in succession *)
(* ===================================================================== *)

Section Rows.

Variable rt : runtime.
Variable retriever : retriever_choice.

(** The list [[i, p['span'], p['doc_id'], '%.5g' % p['span_score'],
    '%.5g' % p['doc_score']]] handed to [table.add_row], evaluated left
    to right. *)
Definition prediction_row (i : Z) (p : pyval) : result (list pyval) :=
  match getitem p "span" with
  | Raise e => Raise e
  | Ok span =>
  match getitem p "doc_id" with
  | Raise e => Raise e
  | Ok doc_id =>
  match getitem p "span_score" with
  | Raise e => Raise e
  | Ok span_score =>
  match percent_5g rt span_score with
  | Raise e => Raise e
  | Ok answer_score =>
  match getitem p "doc_score" with
  | Raise e => Raise e
  | Ok doc_score =>
  match percent_5g rt doc_score with
  | Raise e => Raise e
  | Ok doc_score =>
      Ok [PyInt i; span; doc_id; PyStr answer_score; PyStr doc_score]
  end end end end end end.

(** What the table loop leaves, for any list of predictions: the table
    with one row per prediction, or the exception of the first row that
    cannot be built.  The world is untouched either way. *)
Definition table_loop_outcome (predictions : list pyval) (i : Z)
    (table : PrettyTable) (w : world) (out : result PrettyTable * world) : Prop :=
  snd out = w
  /\ match fst out with
     | Ok table' =>
         field_names table' = field_names table
         /\ exists new_rows,
              rows table' = rows table ++ new_rows
              /\ length new_rows = length predictions
              /\ map (fun row : list pyval => row !! 0%nat) new_rows
                 = map (fun r => Some (PyInt r))
                       (seqZ i (Z.of_nat (length predictions)))
              /\ Forall (fun row : list pyval => length row = 5%nat) new_rows
              /\ forall (k : nat) p,
                   predictions !! k = Some p ->
                   exists row, prediction_row (i + Z.of_nat k) p = Ok row
     | Raise e =>
         exists (k : nat) p,
           predictions !! k = Some p
           /\ prediction_row (i + Z.of_nat k) p = Raise e
     end.

(** The runtime [rt] with a backend that answers as [other] says when
    it is called with [return_context=False], and as before when it is
    called with [return_context=True]. *)
Definition with_answers_without_context
    (other : pipeline_class -> nat -> pyval -> pyval -> pyval
             -> result (list pyval)) : runtime :=
  {| time_time := time_time rt;
     pipeline_process :=
       fun cls k question top_n n_docs return_context =>
         if return_context
         then pipeline_process rt cls k question top_n n_docs true
         else other cls k question top_n n_docs;
     fmt_4f := fmt_4f rt;
     fmt_5g := fmt_5g rt;
     int_to_float := int_to_float rt;
     py_repr := py_repr rt;
     colored := colored rt |}.

(** One call of [process] as the operator types it. *)
Record query : Type := Query {
  query_question : pyval;
  query_top_n : option pyval;
  query_n_docs : option pyval
}.

(** The world after the queries have been issued one after the other,
    each from the world the one before it left, whether it returned or
    raised. *)
Definition run_queries (qs : list query) (w : world) : world :=
  fold_left
    (fun w q => snd (process rt retriever (query_question q) (query_top_n q)
                       (query_n_docs q) w))
    qs w.

(** The backend call a query makes. *)
Definition call_of (q : query) : backend_call :=
  Call (query_question q) (default (PyInt 3) (query_top_n q))
    (default (PyInt (n_docs_default retriever)) (query_n_docs q)) true.

End Rows.


(** The lines of [pairs], a document line and a context line each. *)
Definition view_lines (pairs : list (string * string)) : list printed :=
  flat_map (fun dv => [PrintStr (fst dv); PrintStr (snd dv)]) pairs.

(* ===================================================================== *)
(** ** Start-up: options, device, pipeline *)
(* ===================================================================== *)

(** What the command line gives: for an option with a value, the value
    (already of the option's type) or nothing; for a flag, whether it
    is present. *)
Record command_line : Type := CommandLine {
  given_reader_model : option string;
  given_use_fast_tokenizer : bool;
  given_retriever : option retriever_choice;
  given_index_path : option string;
  given_index_lan : option string;
  given_retriever_model : option string;
  given_group_length : option Z;
  given_doc_db : option string;
  given_no_cuda : bool;
  given_gpu : option Z;
  given_num_workers : option Z;
  given_batch_size : option Z
}.

(** The namespace [args]; an option whose value is Python's [None] is
    [None] here. *)
Record args : Type := Args {
  args_reader_model : option string;
  args_use_fast_tokenizer : bool;
  args_retriever : retriever_choice;
  args_index_path : option string;
  args_index_lan : option string;
  args_retriever_model : option string;
  args_group_length : Z;
  args_doc_db : option string;
  args_no_cuda : bool;
  args_gpu : Z;
  args_num_workers : option Z;
  args_batch_size : Z
}.

(** [parser.parse_args()] with the options as the script declares them:
    an option not given takes its [default]; a [store_true] flag is
    [True] when given and its default otherwise. *)
Definition parse_args (cl : command_line) : args :=
  {| args_reader_model := given_reader_model cl;
     args_use_fast_tokenizer :=
       if given_use_fast_tokenizer cl then true else true;
     args_retriever := default serini_bm25 (given_retriever cl);
     args_index_path := given_index_path cl;
     args_index_lan := given_index_lan cl;
     args_retriever_model := given_retriever_model cl;
     args_group_length := default 500 (given_group_length cl);
     args_doc_db := given_doc_db cl;
     args_no_cuda := if given_no_cuda cl then true else false;
     args_gpu := default (-1) (given_gpu cl);
     args_num_workers := given_num_workers cl;
     args_batch_size := default 32 (given_batch_size cl) |}.

(** The keyword arguments of the two constructors. *)
Record DrQATransformers_kwargs : Type := DrQAKwargs {
  drqa_reader_model : option string;
  drqa_use_fast_tokenizer : bool;
  drqa_group_length : Z;
  drqa_cuda : bool;
  drqa_tfidf_path : option string;   (* ranker_config['options']['tfidf_path'] *)
  drqa_strict : bool;                (* ranker_config['options']['strict'] *)
  drqa_db_path : option string;      (* db_config['options']['db_path'] *)
  drqa_num_workers : option Z;
  drqa_batch_size : Z
}.

Record PyseriniTransformersQA_kwargs : Type := PyseriniKwargs {
  pyserini_reader_model : option string;
  pyserini_use_fast_tokenizer : bool;
  pyserini_index_path : option string;
  pyserini_index_lan : option string;
  pyserini_cuda : bool;
  pyserini_ranker_config : option pyval;
  pyserini_num_workers : option Z;
  pyserini_batch_size : Z
}.

Inductive pipeline_instance : Type :=
| NewDrQATransformers (kwargs : DrQATransformers_kwargs)
| NewPyseriniTransformersQA (kwargs : PyseriniTransformersQA_kwargs).

(** What start-up leaves for the console: [args.cuda], the device
    handed to [torch.cuda.set_device] if it was called, the pipeline as
    constructed, and [n_docs_default]. *)
Record session_setup : Type := Setup {
  setup_cuda : bool;
  setup_device : option Z;
  setup_pipeline : pipeline_instance;
  setup_n_docs_default : Z
}.

(** What start-up takes from outside: the answer of
    [torch.cuda.is_available()], and [torch.cuda.set_device] and the two
    constructors, each of which returns or raises. *)
Record platform : Type := Platform {
  cuda_is_available : bool;
  set_device : Z -> result unit;
  new_DrQATransformers : DrQATransformers_kwargs -> result unit;
  new_PyseriniTransformersQA : PyseriniTransformersQA_kwargs -> result unit
}.

(** The keyword arguments start-up builds for either constructor. *)
Definition drqa_kwargs_of (a : args) (cuda : bool) : DrQATransformers_kwargs :=
  {| drqa_reader_model := args_reader_model a;
     drqa_use_fast_tokenizer := args_use_fast_tokenizer a;
     drqa_group_length := args_group_length a;
     drqa_cuda := cuda;
     drqa_tfidf_path := args_retriever_model a;
     drqa_strict := false;
     drqa_db_path := args_doc_db a;
     drqa_num_workers := args_num_workers a;
     drqa_batch_size := args_batch_size a |}.

Definition pyserini_kwargs_of (a : args) (cuda : bool)
  : PyseriniTransformersQA_kwargs :=
  {| pyserini_reader_model := args_reader_model a;
     pyserini_use_fast_tokenizer := args_use_fast_tokenizer a;
     pyserini_index_path := args_index_path a;
     pyserini_index_lan := args_index_lan a;
     pyserini_cuda := cuda;
     pyserini_ranker_config := None;
     pyserini_num_workers := args_num_workers a;
     pyserini_batch_size := args_batch_size a |}.

(** Lines 62 to 101 of the script.  An exception of [set_device] or of
    a constructor ends start-up where it is raised. *)
Definition startup (env : platform) (a : args) : Py.M session_setup :=
  let cuda := negb (args_no_cuda a) && cuda_is_available env in
  device <-
    (if cuda
     then (Py.lift (set_device env (args_gpu a)) ;;
           logger_info ("CUDA enabled (GPU " +:+ pretty (args_gpu a) +:+ ")") ;;
           Py.ret (Some (args_gpu a)))
     else (logger_info "Running on CPU only." ;; Py.ret None)) ;;
  logger_info "Initializing pipeline..." ;;
  match args_retriever a with
  | tfidf =>
      Py.lift (new_DrQATransformers env (drqa_kwargs_of a cuda)) ;;
      Py.ret {| setup_cuda := cuda; setup_device := device;
                setup_pipeline := NewDrQATransformers (drqa_kwargs_of a cuda);
                setup_n_docs_default := 5 |}
  | serini_bm25 =>
      Py.lift (new_PyseriniTransformersQA env (pyserini_kwargs_of a cuda)) ;;
      Py.ret {| setup_cuda := cuda; setup_device := device;
                setup_pipeline :=
                  NewPyseriniTransformersQA (pyserini_kwargs_of a cuda);
                setup_n_docs_default := 30 |}
  end.

(** What the constructed pipeline was told about CUDA and the tokenizer,
    and which class it is. *)
Definition pipeline_cuda (p : pipeline_instance) : bool :=
  match p with
  | NewDrQATransformers kw => drqa_cuda kw
  | NewPyseriniTransformersQA kw => pyserini_cuda kw
  end.

Definition pipeline_use_fast_tokenizer (p : pipeline_instance) : bool :=
  match p with
  | NewDrQATransformers kw => drqa_use_fast_tokenizer kw
  | NewPyseriniTransformersQA kw => pyserini_use_fast_tokenizer kw
  end.

Definition class_of (p : pipeline_instance) : pipeline_class :=
  match p with
  | NewDrQATransformers _ => DrQATransformers
  | NewPyseriniTransformersQA _ => PyseriniTransformersQA
  end.

(** The same arguments with other values for the options of the other
    retriever. *)
Definition with_index_options (path lan : option string) (a : args) : args :=
  {| args_reader_model := args_reader_model a;
     args_use_fast_tokenizer := args_use_fast_tokenizer a;
     args_retriever := args_retriever a;
     args_index_path := path;
     args_index_lan := lan;
     args_retriever_model := args_retriever_model a;
     args_group_length := args_group_length a;
     args_doc_db := args_doc_db a;
     args_no_cuda := args_no_cuda a;
     args_gpu := args_gpu a;
     args_num_workers := args_num_workers a;
     args_batch_size := args_batch_size a |}.

Definition with_tfidf_options (model : option string) (group : Z)
    (db : option string) (a : args) : args :=
  {| args_reader_model := args_reader_model a;
     args_use_fast_tokenizer := args_use_fast_tokenizer a;
     args_retriever := args_retriever a;
     args_index_path := args_index_path a;
     args_index_lan := args_index_lan a;
     args_retriever_model := model;
     args_group_length := group;
     args_doc_db := db;
     args_no_cuda := args_no_cuda a;
     args_gpu := args_gpu a;
     args_num_workers := args_num_workers a;
     args_batch_size := args_batch_size a |}.

(** No option given at all. *)
Definition bare_command_line : command_line :=
  {| given_reader_model := None; given_use_fast_tokenizer := false;
     given_retriever := None; given_index_path := None;
     given_index_lan := None; given_retriever_model := None;
     given_group_length := None; given_doc_db := None;
     given_no_cuda := false; given_gpu := None;
     given_num_workers := None; given_batch_size := None |}.

(** A machine with CUDA on which everything start-up calls succeeds. *)
Definition ready_platform : platform :=
  {| cuda_is_available := true;
     set_device := fun _ => Ok tt;
     new_DrQATransformers := fun _ => Ok tt;
     new_PyseriniTransformersQA := fun _ => Ok tt |}.

(** The same machine with constructors that refuse a slow tokenizer. *)
Definition fast_only_platform : platform :=
  {| cuda_is_available := true;
     set_device := fun _ => Ok tt;
     new_DrQATransformers :=
       fun kw => if drqa_use_fast_tokenizer kw then Ok tt
                 else Raise (Exception "ValueError");
     new_PyseriniTransformersQA :=
       fun kw => if pyserini_use_fast_tokenizer kw then Ok tt
                 else Raise (Exception "ValueError") |}.

(** A machine whose device cannot be selected, and one on which no
    pipeline can be constructed (no index, no model). *)
Definition broken_device_platform : platform :=
  {| cuda_is_available := true;
     set_device := fun _ => Raise (Exception "RuntimeError");
     new_DrQATransformers := fun _ => Ok tt;
     new_PyseriniTransformersQA := fun _ => Ok tt |}.

Definition no_pipeline_platform : platform :=
  {| cuda_is_available := false;
     set_device := fun _ => Ok tt;
     new_DrQATransformers := fun _ => Raise (Exception "RuntimeError");
     new_PyseriniTransformersQA := fun _ => Raise (Exception "RuntimeError") |}.

(** A prediction whose scores are there but whose [doc_id] is not. *)
Definition no_doc_id : pyval :=
  PyDict (<["span" := PyStr "Paris"]>
         (<["span_score" := PyFloat 0.75%float]>
         (<["doc_score" := PyFloat 12.5%float]> ∅))).

(** Offsets counted from the end of the text, as Python allows. *)
Definition paris_from_end : answer_span :=
  {| span := PyStr "Paris"; doc_id := PyStr "France";
     span_score := 0.75%float; doc_score := 12.5%float;
     context := Some {| ctx_text := "The capital of France is Paris.";
                        ctx_start := -6; ctx_end := -1 |};
     other_fields := ∅ |}.

(** Offsets that cross. *)
Definition paris_crossed : answer_span :=
  {| span := PyStr "Paris"; doc_id := PyStr "France";
     span_score := 0.75%float; doc_score := 12.5%float;
     context := Some {| ctx_text := "The capital of France is Paris.";
                        ctx_start := 30; ctx_end := 25 |};
     other_fields := ∅ |}.

(* ===================================================================== *)
(** ** Strings *)
(* ===================================================================== *)

Lemma str_take_drop (n : nat) (s : string) :
  str_take n s +:+ str_drop n s = s.
Proof.
  revert s; induction n as [|n IH]; intros [|c s]; simpl; try reflexivity.
  change (String c (str_take n s +:+ str_drop n s) = String c s).
  f_equal. apply IH.
Qed.

Lemma str_take_all (n : nat) (s : string) :
  (String.length s <= n)%nat -> str_take n s = s.
Proof.
  revert s; induction n as [|n IH]; intros [|c s]; simpl; intros H;
    try reflexivity; try lia.
  rewrite IH; [reflexivity | lia].
Qed.

Lemma str_drop_length (n : nat) (s : string) :
  String.length (str_drop n s) = (String.length s - n)%nat.
Proof.
  revert s; induction n as [|n IH]; intros [|c s]; simpl; try lia.
  apply IH.
Qed.

Lemma str_drop_drop (n m : nat) (s : string) :
  str_drop m (str_drop n s) = str_drop (n + m) s.
Proof.
  revert s; induction n as [|n IH]; intros s; simpl; [reflexivity|].
  destruct s as [|c s]; [now destruct m | apply IH].
Qed.

Lemma adjust_index_in_range (len i : Z) :
  0 <= i <= len -> adjust_index len i = i.
Proof.
  intros H. unfold adjust_index.
  destruct (Z.ltb_spec i 0); lia.
Qed.

(** The three slices of the renderer, for offsets within the text, are
    a partition of the text. *)
Lemma py_slice_partition (s : string) (a b : Z) :
  0 <= a -> a <= b -> b <= Z.of_nat (String.length s) ->
  py_slice s None (Some a) +:+ py_slice s (Some a) (Some b)
    +:+ py_slice s (Some b) None = s.
Proof.
  intros Ha Hab Hb. unfold py_slice.
  rewrite !adjust_index_in_range by lia.
  replace (a - 0) with a by lia. simpl (str_drop (Z.to_nat 0) s).
  rewrite (str_take_all (Z.to_nat (Z.of_nat (String.length s) - b))).
  2:{ rewrite str_drop_length. lia. }
  replace (Z.to_nat b) with (Z.to_nat a + Z.to_nat (b - a))%nat by lia.
  rewrite <- str_drop_drop.
  rewrite str_take_drop.
  apply str_take_drop.
Qed.

(** Python's slicing on a few inputs: bounds past the end are clamped,
    negative bounds count from the end, crossed bounds give nothing. *)
Example slice_middle : py_slice "abcde" (Some 1) (Some 3) = "bc".
Proof. reflexivity. Qed.

Example slice_clamped : py_slice "abcde" (Some 3) (Some 99) = "de".
Proof. reflexivity. Qed.

Example slice_negative : py_slice "abcde" None (Some (-1)) = "abcd".
Proof. reflexivity. Qed.

Example slice_crossed : py_slice "abcde" (Some 3) (Some 1) = "".
Proof. reflexivity. Qed.

(** With crossed offsets the three slices overlap, and joined they are
    not the text. *)
Example slices_crossed_overlap :
  py_slice "abcde" None (Some 3) +:+ py_slice "abcde" (Some 3) (Some 1)
    +:+ py_slice "abcde" (Some 1) None = "abcbcde".
Proof. reflexivity. Qed.

Example enumerate_from_one :
  enumerate ["a"; "b"; "c"] 1 = [(1, "a"); (2, "b"); (3, "c")].
Proof. reflexivity. Qed.

(* ===================================================================== *)
(** ** The display only grows *)
(* ===================================================================== *)

Lemma emit_nil (w : world) : emit [] w = w.
Proof. destruct w; unfold emit; simpl. now rewrite !app_nil_r. Qed.

Lemma emit_emit (xs ys : list printed) (w : world) :
  emit ys (emit xs w) = emit (xs ++ ys) w.
Proof. unfold emit; simpl. now rewrite map_app, !app_assoc. Qed.


Lemma prints_only_refl (w : world) : prints_only w w.
Proof. exists []. symmetry; apply emit_nil. Qed.

Lemma prints_only_trans (w1 w2 w3 : world) :
  prints_only w1 w2 -> prints_only w2 w3 -> prints_only w1 w3.
Proof.
  intros [xs ->] [ys ->]. exists (xs ++ ys). apply emit_emit.
Qed.

Lemma prints_only_bind {A B} (m : Py.M A) (k : A -> Py.M B) (w : world) :
  prints_only w (snd (m w)) ->
  (forall a w1, prints_only w1 (snd (k a w1))) ->
  prints_only w (snd (Py.bind m k w)).
Proof.
  intros Hm Hk. unfold Py.bind.
  destruct (m w) as [[a|e] w1]; simpl in *; [|exact Hm].
  eapply prints_only_trans; [exact Hm | apply Hk].
Qed.

Lemma prints_only_lift {A} (r : result A) (w : world) :
  prints_only w (snd (Py.lift r w)).
Proof. apply prints_only_refl. Qed.

Lemma prints_only_print_str (s : string) (w : world) :
  prints_only w (snd (print_str s w)).
Proof. now exists [PrintStr s]. Qed.

Lemma prints_only_print_table (t : PrettyTable) (w : world) :
  prints_only w (snd (print_table t w)).
Proof. now exists [PrintTable t]. Qed.

Lemma prints_only_for_each {A} (body : A -> Py.M unit) (l : list A) :
  (forall x w, prints_only w (snd (body x w))) ->
  forall w, prints_only w (snd (Py.for_each l body w)).
Proof.
  intros Hbody. induction l as [|x l IH]; intros w; simpl.
  - apply prints_only_refl.
  - apply prints_only_bind; [apply Hbody | intros _ w1; apply IH].
Qed.

Lemma prints_only_for_fold {A S} (body : S -> A -> Py.M S) (l : list A) :
  (forall acc x w, prints_only w (snd (body acc x w))) ->
  forall acc w, prints_only w (snd (Py.for_fold l body acc w)).
Proof.
  intros Hbody. induction l as [|x l IH]; intros acc w; simpl.
  - apply prints_only_refl.
  - apply prints_only_bind; [apply Hbody | intros acc1 w1; apply IH].
Qed.

Create HintDb frame.
#[local] Hint Resolve prints_only_refl prints_only_lift prints_only_print_str
  prints_only_print_table : frame.

Ltac frame_steps :=
  repeat first
    [ apply prints_only_bind; [|intros ? ?]
    | solve [auto with frame] ].

Section Frames.

Variable rt : runtime.

Lemma prints_only_add_prediction_row t ip (w : world) :
  prints_only w (snd (add_prediction_row rt t ip w)).
Proof.
  unfold add_prediction_row. destruct ip as [i p]. frame_steps.
Qed.

Lemma prints_only_render_context p (w : world) :
  prints_only w (snd (render_context rt p w)).
Proof. unfold render_context. frame_steps. Qed.

Lemma prints_only_render_predictions predictions (w : world) :
  prints_only w (snd (render_predictions rt predictions w)).
Proof.
  unfold render_predictions.
  apply prints_only_bind.
  { apply prints_only_for_fold. intros; apply prints_only_add_prediction_row. }
  intros table w1. frame_steps.
  apply prints_only_for_each. intros; apply prints_only_render_context.
Qed.

End Frames.

(* ===================================================================== *)
(** ** Reading the fields of a prediction *)
(* ===================================================================== *)

Lemma getitem_span a : getitem (prediction_of a) "span" = Ok (span a).
Proof. unfold getitem, prediction_of. now rewrite lookup_insert_eq. Qed.

Lemma getitem_doc_id a :
  getitem (prediction_of a) "doc_id" = Ok (doc_id a).
Proof.
  unfold getitem, prediction_of.
  rewrite lookup_insert_ne by done. now rewrite lookup_insert_eq.
Qed.

Lemma getitem_span_score a :
  getitem (prediction_of a) "span_score" = Ok (PyFloat (span_score a)).
Proof.
  unfold getitem, prediction_of.
  do 2 rewrite lookup_insert_ne by done. now rewrite lookup_insert_eq.
Qed.

Lemma getitem_doc_score a :
  getitem (prediction_of a) "doc_score" = Ok (PyFloat (doc_score a)).
Proof.
  unfold getitem, prediction_of.
  do 3 rewrite lookup_insert_ne by done. now rewrite lookup_insert_eq.
Qed.

Lemma getitem_context a :
  getitem (prediction_of a) "context" =
  match context a with
  | Some c => Ok (context_dict c)
  | None => Raise (KeyError "context")
  end.
Proof.
  unfold getitem, prediction_of.
  do 4 rewrite lookup_insert_ne by done.
  destruct (context a) as [c|].
  - now rewrite lookup_insert_eq.
  - now rewrite lookup_delete_eq.
Qed.

Lemma getitem_text c : getitem (context_dict c) "text" = Ok (PyStr (ctx_text c)).
Proof. unfold getitem, context_dict. now rewrite lookup_insert_eq. Qed.

Lemma getitem_start c : getitem (context_dict c) "start" = Ok (PyInt (ctx_start c)).
Proof.
  unfold getitem, context_dict.
  rewrite lookup_insert_ne by done. now rewrite lookup_insert_eq.
Qed.

Lemma getitem_end c : getitem (context_dict c) "end" = Ok (PyInt (ctx_end c)).
Proof.
  unfold getitem, context_dict.
  do 2 rewrite lookup_insert_ne by done. now rewrite lookup_insert_eq.
Qed.

Lemma enumerate_length {A} (l : list A) (i : Z) :
  length (enumerate l i) = length l.
Proof. revert i; induction l as [|x l IH]; intros i; simpl; [|rewrite IH]; reflexivity. Qed.

Lemma enumerate_lookup {A} (l : list A) (i : Z) (k : nat) :
  enumerate l i !! k = (fun x => (i + Z.of_nat k, x)) <$> l !! k.
Proof.
  revert i k; induction l as [|x l IH]; intros i [|k]; simpl; try reflexivity.
  - now rewrite Z.add_0_r.
  - rewrite IH. destruct (l !! k); simpl; [|reflexivity].
    do 2 f_equal. lia.
Qed.


(* ===================================================================== *)
(** ** Running the renderer on answer spans *)
(* ===================================================================== *)

Section Rendering.

Variable rt : runtime.

Lemma add_prediction_row_span table i a w :
  add_prediction_row rt table (i, prediction_of a) w
  = (Ok (add_row table (span_row rt i a)), w).
Proof.
  unfold add_prediction_row, Py.bind, Py.lift, Py.ret.
  rewrite getitem_span, getitem_doc_id, getitem_span_score, getitem_doc_score.
  reflexivity.
Qed.

Lemma add_rows_spans spans : forall i table w,
  Py.for_fold (enumerate (map prediction_of spans) i)
              (add_prediction_row rt) table w
  = (Ok {| field_names := field_names table;
           rows := rows table ++ span_rows rt i spans |}, w).
Proof.
  induction spans as [|a spans IH]; intros i table w;
    cbn [Py.for_fold enumerate map].
  - unfold Py.ret, span_rows; simpl. rewrite app_nil_r. now destruct table.
  - unfold Py.bind at 1. rewrite add_prediction_row_span.
    rewrite IH. unfold add_row, span_rows; simpl.
    now rewrite <- app_assoc.
Qed.

Lemma render_context_present a c w :
  context a = Some c ->
  render_context rt (prediction_of a) w = (Ok tt, emit (context_view rt a c) w).
Proof.
  intros Hc. unfold render_context, Py.bind, Py.lift.
  rewrite getitem_context, Hc, getitem_text, getitem_start, getitem_end.
  unfold str_slice, slice_bound. rewrite getitem_doc_id.
  unfold print_str. now rewrite emit_emit.
Qed.

Lemma render_context_absent a w :
  context a = None ->
  render_context rt (prediction_of a) w = (Raise (KeyError "context"), w).
Proof.
  intros Hc. unfold render_context, Py.bind, Py.lift.
  now rewrite getitem_context, Hc.
Qed.

Lemma render_contexts_present spans : forall w,
  Forall (fun a => is_Some (context a)) spans ->
  Py.for_each (map prediction_of spans) (render_context rt) w
  = (Ok tt, emit (context_views rt spans) w).
Proof.
  induction spans as [|a spans IH]; intros w Hall;
    cbn [Py.for_each map].
  - unfold Py.ret. now rewrite emit_nil.
  - inversion Hall as [|? ? [c Hc] Hrest]; subst.
    unfold Py.bind. rewrite (render_context_present a c) by exact Hc.
    rewrite IH by exact Hrest. rewrite emit_emit.
    unfold context_views at 2; simpl. now rewrite Hc.
Qed.

Lemma render_contexts_stop before a after : forall w,
  Forall (fun a => is_Some (context a)) before ->
  context a = None ->
  Py.for_each (map prediction_of (before ++ a :: after)) (render_context rt) w
  = (Raise (KeyError "context"), emit (context_views rt before) w).
Proof.
  induction before as [|b before IH]; intros w Hall Ha;
    cbn [Py.for_each map app].
  - unfold Py.bind. rewrite render_context_absent by exact Ha.
    now rewrite emit_nil.
  - inversion Hall as [|? ? [c Hc] Hrest]; subst.
    unfold Py.bind. rewrite (render_context_present b c) by exact Hc.
    rewrite IH by assumption. rewrite emit_emit.
    unfold context_views at 2; simpl. now rewrite Hc.
Qed.

End Rendering.

(* ===================================================================== *)
(** ** Running a query *)
(* ===================================================================== *)

Section Query.

Variable rt : runtime.
Variable retriever : retriever_choice.

Lemma process_run question top_n n_docs w :
  process rt retriever question top_n n_docs w =
  let tn := default (PyInt 3) top_n in
  let nd := default (PyInt (n_docs_default retriever)) n_docs in
  match backend_answer rt retriever question tn nd w with
  | Ok predictions =>
      render_predictions rt predictions (after_latency_record rt question tn nd w)
  | Raise e => (Raise e, after_backend_call question tn nd w)
  end.
Proof.
  unfold process, backend_answer, Py.bind at 1 2, now, call_pipeline.
  cbn [clock_reads backend_calls log stdout].
  destruct (pipeline_process rt _ _ _ _ _ _) as [predictions|e]; reflexivity.
Qed.

Lemma process_backend_calls question top_n n_docs w :
  backend_calls (snd (process rt retriever question top_n n_docs w))
  = backend_calls w
    ++ [Call question (default (PyInt 3) top_n)
          (default (PyInt (n_docs_default retriever)) n_docs) true].
Proof.
  rewrite process_run. cbv zeta.
  destruct (backend_answer _ _ _ _) as [predictions|e]; [|reflexivity].
  destruct (prints_only_render_predictions rt predictions
              (after_latency_record rt question (default (PyInt 3) top_n)
                 (default (PyInt (n_docs_default retriever)) n_docs) w))
    as [items ->].
  reflexivity.
Qed.

(** The table and both headings are printed for any answer spans;
    what follows are context views. *)
Lemma render_predictions_summary spans w :
  exists r items,
    render_predictions rt (map prediction_of spans) w
    = (r, emit (summary rt spans ++ items) w).
Proof.
  unfold render_predictions, Py.bind at 1. rewrite add_rows_spans.
  cbn [field_names rows app].
  unfold Py.bind, print_str, print_table. rewrite !emit_emit.
  cbn [app].
  match goal with |- context [Py.for_each ?l ?b ?w1] =>
    pose proof (prints_only_for_each b l (prints_only_render_context rt) w1) as Hp;
    destruct (Py.for_each l b w1) as [r w2] end.
  destruct Hp as [items Hitems]. cbn [snd] in Hitems. subst w2.
  exists r, items. now rewrite emit_emit.
Qed.

Lemma render_predictions_spans spans w :
  Forall (fun a => is_Some (context a)) spans ->
  render_predictions rt (map prediction_of spans) w
  = (Ok tt, emit (summary rt spans ++ context_views rt spans) w).
Proof.
  intros Hall.
  unfold render_predictions, Py.bind at 1. rewrite add_rows_spans.
  cbn [field_names rows app].
  unfold Py.bind, print_str, print_table. rewrite !emit_emit.
  rewrite render_contexts_present by exact Hall.
  now rewrite emit_emit.
Qed.

Lemma render_predictions_stop before a after w :
  Forall (fun a => is_Some (context a)) before ->
  context a = None ->
  render_predictions rt (map prediction_of (before ++ a :: after)) w
  = (Raise (KeyError "context"),
     emit (summary rt (before ++ a :: after) ++ context_views rt before) w).
Proof.
  intros Hall Ha.
  unfold render_predictions, Py.bind at 1. rewrite add_rows_spans.
  cbn [field_names rows app].
  unfold Py.bind, print_str, print_table. rewrite !emit_emit.
  rewrite render_contexts_stop by assumption.
  now rewrite emit_emit.
Qed.

End Query.

(* ===================================================================== *)
(** ** The rows of the table *)
(* ===================================================================== *)

Lemma span_rows_length rt i spans :
  length (span_rows rt i spans) = length spans.
Proof. unfold span_rows. now rewrite length_map, enumerate_length. Qed.

Lemma span_rows_lookup rt i spans (k : nat) a :
  spans !! k = Some a ->
  span_rows rt i spans !! k = Some (span_row rt (i + Z.of_nat k) a).
Proof.
  intros Hk. unfold span_rows.
  now rewrite list_lookup_fmap, enumerate_lookup, Hk.
Qed.

Lemma span_rows_rank_column rt spans : forall i,
  map (fun row : list pyval => row !! 0%nat) (span_rows rt i spans)
  = map (fun r => Some (PyInt r)) (seqZ i (Z.of_nat (length spans))).
Proof.
  induction spans as [|a spans IH]; intros i; [reflexivity|].
  rewrite seqZ_cons by (cbn [length]; lia).
  replace (Z.pred (Z.of_nat (length (a :: spans))))
    with (Z.of_nat (length spans)) by (cbn [length]; lia).
  unfold span_rows in *. cbn [enumerate map]. f_equal.
  replace (Z.succ i) with (i + 1) by lia. apply IH.
Qed.

(** A query whose backend returns answer spans, all with their context:
    the whole run. *)
Lemma process_answer_spans rt retriever question top_n n_docs w spans :
  backend_answer rt retriever question (default (PyInt 3) top_n)
    (default (PyInt (n_docs_default retriever)) n_docs) w
  = Ok (map prediction_of spans) ->
  Forall (fun a => is_Some (context a)) spans ->
  process rt retriever question top_n n_docs w
  = (Ok tt,
     emit (summary rt spans ++ context_views rt spans)
       (after_latency_record rt question (default (PyInt 3) top_n)
          (default (PyInt (n_docs_default retriever)) n_docs) w)).
Proof.
  intros Hback Hall. rewrite process_run. cbv zeta. rewrite Hback.
  now apply render_predictions_spans.
Qed.

(* ===================================================================== *)
(** ** Defaults of the query command (C1, C8) *)
(* ===================================================================== *)

(** C1: when [top_n] is omitted it is 3; when [n_docs] is omitted it is
    the default fixed at start-up, 5 with the tfidf retriever and 30 with
    the serini-bm25 retriever.  Omitting an argument gives the same run
    as passing that value, and the backend is called with these values. *)
Theorem process_defaults (rt : runtime) (question : pyval) (w : world) :
  (forall retriever n_docs,
     process rt retriever question None n_docs w
     = process rt retriever question (Some (PyInt 3)) n_docs w)
  /\ (forall top_n,
        process rt tfidf question top_n None w
        = process rt tfidf question top_n (Some (PyInt 5)) w)
  /\ (forall top_n,
        process rt serini_bm25 question top_n None w
        = process rt serini_bm25 question top_n (Some (PyInt 30)) w)
  /\ backend_calls (snd (process rt tfidf question None None w))
     = backend_calls w ++ [Call question (PyInt 3) (PyInt 5) true]
  /\ backend_calls (snd (process rt serini_bm25 question None None w))
     = backend_calls w ++ [Call question (PyInt 3) (PyInt 30) true].
Proof.
  repeat split; try reflexivity; apply process_backend_calls.
Qed.

(** C8 as stated fails: the defaults are not 5 for the inverted-index
    (serini-bm25) pipeline and 30 for the tfidf pipeline. *)
Lemma n_docs_default_not_swapped :
  ~ (n_docs_default serini_bm25 = 5 /\ n_docs_default tfidf = 30).
Proof. intros [H _]. discriminate H. Qed.

(** C8, amended: start-up fixes the default at 5 together with the
    tfidf pipeline [DrQATransformers], and at 30 together with the
    inverted-index pipeline [PyseriniTransformersQA]. *)
Theorem n_docs_default_per_backend :
  (pipeline_of tfidf = DrQATransformers /\ n_docs_default tfidf = 5)
  /\ (pipeline_of serini_bm25 = PyseriniTransformersQA
      /\ n_docs_default serini_bm25 = 30).
Proof. split; split; reflexivity. Qed.

(* ===================================================================== *)
(** ** The backend call (C7, C6, C4) *)
(* ===================================================================== *)

(** The backend's answers to [return_context=False] are never asked for. *)
Lemma process_ignores_answers_without_context
    rt retriever other question top_n n_docs w :
  process (with_answers_without_context rt other) retriever
    question top_n n_docs w
  = process rt retriever question top_n n_docs w.
Proof.
  rewrite !process_run. cbv zeta.
  unfold backend_answer. cbn [pipeline_process with_answers_without_context].
  destruct (pipeline_process rt _ _ _ _ _ _); reflexivity.
Qed.

(** C7: whatever the question, [top_n] and [n_docs], a query makes one
    call to the backend, and that call has [return_context = True]: the
    call on record says so; the run is decided by what
    [pipeline.process] answers when handed [return_context=True]; and
    what it would answer to [return_context=False] never matters. *)
Theorem backend_called_with_return_context
    (rt : runtime) (retriever : retriever_choice)
    (question : pyval) (top_n n_docs : option pyval) (w : world) :
  let tn := default (PyInt 3) top_n in
  let nd := default (PyInt (n_docs_default retriever)) n_docs in
  (exists call,
     backend_calls (snd (process rt retriever question top_n n_docs w))
     = backend_calls w ++ [call]
     /\ call_question call = question
     /\ call_return_context call = true)
  /\ match pipeline_process rt (pipeline_of retriever)
             (length (backend_calls w)) question tn nd true with
     | Raise e =>
         process rt retriever question top_n n_docs w
         = (Raise e, after_backend_call question tn nd w)
     | Ok predictions =>
         process rt retriever question top_n n_docs w
         = render_predictions rt predictions
             (after_latency_record rt question tn nd w)
     end
  /\ forall other,
       process (with_answers_without_context rt other) retriever
         question top_n n_docs w
       = process rt retriever question top_n n_docs w.
Proof.
  intros tn nd. split; [|split].
  - eexists. split; [apply process_backend_calls | split; reflexivity].
  - pose proof (process_run rt retriever question top_n n_docs w) as Hrun.
    cbv zeta in Hrun. unfold backend_answer in Hrun. fold tn nd in Hrun.
    destruct (pipeline_process rt _ _ _ _ _ _); exact Hrun.
  - intros other. apply process_ignores_answers_without_context.
Qed.

(** C6: when the backend call raises [e], the query raises the same
    [e]; the backend was called once (the call that raised), and nothing
    was logged or printed. *)
Theorem backend_failure_propagates
    (rt : runtime) (retriever : retriever_choice)
    (question : pyval) (top_n n_docs : option pyval) (w : world) (e : exn) :
  backend_answer rt retriever question (default (PyInt 3) top_n)
    (default (PyInt (n_docs_default retriever)) n_docs) w = Raise e ->
  let run := process rt retriever question top_n n_docs w in
  fst run = Raise e
  /\ backend_calls (snd run)
     = backend_calls w
       ++ [Call question (default (PyInt 3) top_n)
             (default (PyInt (n_docs_default retriever)) n_docs) true]
  /\ log (snd run) = log w
  /\ stdout (snd run) = stdout w.
Proof.
  intros Hfail run. subst run. rewrite process_run. cbv zeta.
  rewrite Hfail. repeat split.
Qed.

Lemma backend_failure_propagates_witness :
  backend_answer (scripted_runtime failing_once) serini_bm25 capital_question
    (PyInt 3) (PyInt 30) initial_world = Raise (Exception "RetrievalError")
  /\ fst (process (scripted_runtime failing_once) serini_bm25 capital_question
            None None initial_world) = Raise (Exception "RetrievalError")
  /\ backend_calls
       (snd (process (scripted_runtime failing_once) serini_bm25
               capital_question None None initial_world))
     = [Call capital_question (PyInt 3) (PyInt 30) true].
Proof.
  split; [reflexivity|].
  pose proof (backend_failure_propagates (scripted_runtime failing_once)
                serini_bm25 capital_question None None initial_world
                (Exception "RetrievalError") eq_refl) as H.
  cbv zeta in H. destruct H as (Hr & Hc & _). split; [exact Hr | exact Hc].
Defined.

(** C4 as stated fails: when the backend raises, the query ends there
    and no latency record has been logged. *)
Lemma no_latency_record_on_failure :
  fst (process (scripted_runtime failing_once) serini_bm25 capital_question
         None None initial_world) = Raise (Exception "RetrievalError")
  /\ log (snd (process (scripted_runtime failing_once) serini_bm25
                 capital_question None None initial_world)) = [].
Proof. split; reflexivity. Qed.

(** C4, amended: the clock is read once before the backend call.  When
    the call returns, the clock is read a second time and one record
    with the difference of the two readings is logged, before anything
    is printed (and so also when rendering fails afterwards).  When the
    call raises, the exception leaves the query at once: the clock is
    not read again, nothing is logged and nothing is printed. *)
Theorem latency_logged_when_backend_returns
    (rt : runtime) (retriever : retriever_choice)
    (question : pyval) (top_n n_docs : option pyval) (w : world) :
  let run := process rt retriever question top_n n_docs w in
  match backend_answer rt retriever question (default (PyInt 3) top_n)
          (default (PyInt (n_docs_default retriever)) n_docs) w with
  | Ok _ =>
      log (snd run)
      = log w
        ++ ["Processed 1 query in "
            +:+ fmt_4f rt (PrimFloat.sub (time_time rt (S (clock_reads w)))
                                         (time_time rt (clock_reads w)))
            +:+ " (s)"]
      /\ clock_reads (snd run) = S (S (clock_reads w))
      /\ exists n,
           trace (snd run)
           = trace w ++ [ClockRead; BackendCall; ClockRead; LogRecord]
             ++ repeat Printed n
  | Raise e =>
      fst run = Raise e
      /\ log (snd run) = log w
      /\ stdout (snd run) = stdout w
      /\ clock_reads (snd run) = S (clock_reads w)
      /\ trace (snd run) = trace w ++ [ClockRead; BackendCall]
  end.
Proof.
  intros run. subst run. rewrite process_run. cbv zeta.
  destruct (backend_answer _ _ _ _ _ _) as [predictions|e].
  - destruct (prints_only_render_predictions rt predictions
                (after_latency_record rt question (default (PyInt 3) top_n)
                   (default (PyInt (n_docs_default retriever)) n_docs) w))
      as [items ->].
    split; [reflexivity|]. split; [reflexivity|].
    exists (length items).
    assert (Hitems : map (fun _ : printed => Printed) items
                     = repeat Printed (length items)).
    { induction items as [|x items IH]; [reflexivity|].
      cbn [map length repeat]. now rewrite IH. }
    cbn [snd emit trace after_latency_record].
    rewrite Hitems, <- !app_assoc. reflexivity.
  - cbn [fst snd after_backend_call log stdout clock_reads trace].
    rewrite <- app_assoc. repeat split.
Qed.

(* ===================================================================== *)
(** ** The summary table (C3, C10) *)
(* ===================================================================== *)

(** C3: when the backend returns N answer spans, the table printed has
    one row per span, in the order of the sequence, and its Rank column
    is 1, 2, ..., N: the position given by [enumerate(predictions, 1)],
    whatever other fields (a rank of its own, say) the backend put in
    the predictions. *)
Theorem summary_table_ranks
    (rt : runtime) (retriever : retriever_choice)
    (question : pyval) (top_n n_docs : option pyval) (w : world)
    (spans : list answer_span) :
  backend_answer rt retriever question (default (PyInt 3) top_n)
    (default (PyInt (n_docs_default retriever)) n_docs) w
  = Ok (map prediction_of spans) ->
  exists table rest,
    stdout (snd (process rt retriever question top_n n_docs w))
    = stdout w ++ PrintStr "Top Predictions:" :: PrintTable table :: rest
    /\ field_names table
       = ["Rank"; "Answer"; "Doc"; "Answer Score"; "Doc Score"]
    /\ length (rows table) = length spans
    /\ map (fun row : list pyval => row !! 0%nat) (rows table)
       = map (fun r => Some (PyInt r)) (seqZ 1 (Z.of_nat (length spans)))
    /\ forall (k : nat) a,
         spans !! k = Some a ->
         rows table !! k
         = Some [PyInt (1 + Z.of_nat k); span a; doc_id a;
                 PyStr (fmt_5g rt (span_score a));
                 PyStr (fmt_5g rt (doc_score a))].
Proof.
  intros Hback. rewrite process_run. cbv zeta. rewrite Hback.
  destruct (render_predictions_summary rt spans
              (after_latency_record rt question (default (PyInt 3) top_n)
                 (default (PyInt (n_docs_default retriever)) n_docs) w))
    as (r & items & ->).
  exists {| field_names := table_header; rows := span_rows rt 1 spans |},
         (PrintStr (newline +:+ "Contexts:") :: items).
  cbn [snd emit stdout after_latency_record summary app field_names rows].
  split; [reflexivity|]. split; [reflexivity|].
  split; [apply span_rows_length|].
  split; [apply span_rows_rank_column|].
  intros k a Hk. now rewrite (span_rows_lookup rt 1 spans k a Hk).
Qed.

Lemma summary_table_ranks_witness :
  backend_answer (scripted_runtime (answering [paris; paris_bare]))
    tfidf capital_question (PyInt 3) (PyInt 5) initial_world
  = Ok (map prediction_of [paris; paris_bare])
  /\ exists table rest,
       stdout (snd (process (scripted_runtime (answering [paris; paris_bare]))
                      tfidf capital_question None None initial_world))
       = PrintStr "Top Predictions:" :: PrintTable table :: rest
       /\ map (fun row : list pyval => row !! 0%nat) (rows table)
          = [Some (PyInt 1); Some (PyInt 2)].
Proof.
  split; [reflexivity|].
  destruct (summary_table_ranks
              (scripted_runtime (answering [paris; paris_bare]))
              tfidf capital_question None None initial_world
              [paris; paris_bare] eq_refl)
    as (table & rest & Hout & _ & _ & Hrank & _).
  exists table, rest. split; [exact Hout | exact Hrank].
Defined.

(** C10: when the backend returns an empty sequence, the query ends
    normally, having printed the first heading, the table with its
    header and no row, and the Contexts heading, and nothing after. *)
Theorem empty_result_renders
    (rt : runtime) (retriever : retriever_choice)
    (question : pyval) (top_n n_docs : option pyval) (w : world) :
  backend_answer rt retriever question (default (PyInt 3) top_n)
    (default (PyInt (n_docs_default retriever)) n_docs) w = Ok [] ->
  let run := process rt retriever question top_n n_docs w in
  fst run = Ok tt
  /\ stdout (snd run)
     = stdout w
       ++ [PrintStr "Top Predictions:";
           PrintTable
             {| field_names :=
                  ["Rank"; "Answer"; "Doc"; "Answer Score"; "Doc Score"];
                rows := [] |};
           PrintStr (newline +:+ "Contexts:")].
Proof.
  intros Hback run. subst run.
  rewrite (process_answer_spans rt retriever question top_n n_docs w []
             Hback (List.Forall_nil _)).
  split; reflexivity.
Qed.

Lemma empty_result_renders_witness :
  backend_answer (scripted_runtime (answering [])) serini_bm25
    capital_question (PyInt 3) (PyInt 30) initial_world = Ok []
  /\ fst (process (scripted_runtime (answering [])) serini_bm25
            capital_question None None initial_world) = Ok tt
  /\ stdout (snd (process (scripted_runtime (answering [])) serini_bm25
                    capital_question None None initial_world))
     = [PrintStr "Top Predictions:";
        PrintTable
          {| field_names := ["Rank"; "Answer"; "Doc"; "Answer Score"; "Doc Score"];
             rows := [] |};
        PrintStr (newline +:+ "Contexts:")].
Proof.
  split; [reflexivity|].
  exact (empty_result_renders (scripted_runtime (answering [])) serini_bm25
           capital_question None None initial_world eq_refl).
Defined.

(* ===================================================================== *)
(** ** Context views (C2, C5) *)
(* ===================================================================== *)

(** C2: for an answer span with its context, the renderer prints the
    document line and then [text[:start]], the styled [text[start:end]]
    and [text[end:]] joined (and a blank line); the slices use the
    offsets as supplied.  With the styling taken off, i.e. the middle
    part unstyled, and offsets with [0 <= start <= end <= len(text)],
    the three parts joined are the text itself. *)
Theorem context_view_highlight
    (rt : runtime) (a : answer_span) (c : context_window) (w : world) :
  context a = Some c ->
  let text := ctx_text c in
  let before := py_slice text None (Some (ctx_start c)) in
  let answer := py_slice text (Some (ctx_start c)) (Some (ctx_end c)) in
  let after := py_slice text (Some (ctx_end c)) None in
  render_context rt (prediction_of a) w
  = (Ok tt,
     emit [PrintStr ("[ Doc = " +:+ percent_s rt (doc_id a) +:+ " ]");
           PrintStr ((before +:+ colored rt answer "green" ["bold"] +:+ after)
                     +:+ newline)] w)
  /\ (valid_offsets c -> before +:+ answer +:+ after = text).
Proof.
  intros Hc text before answer after. split.
  - rewrite (render_context_present rt a c w Hc). reflexivity.
  - intros (Hstart & Hle & Hend). subst before answer after text.
    now apply py_slice_partition.
Qed.

Lemma context_view_highlight_witness :
  context paris = Some paris_window
  /\ valid_offsets paris_window
  /\ render_context (scripted_runtime failing_once) (prediction_of paris)
       initial_world
     = (Ok tt,
        emit [PrintStr "[ Doc = France ]";
              PrintStr (("The capital of France is "
                         +:+ ansi_colored "Paris" "green" ["bold"] +:+ ".")
                        +:+ newline)] initial_world)
  /\ "The capital of France is " +:+ "Paris" +:+ "."
     = "The capital of France is Paris.".
Proof.
  assert (Hvalid : valid_offsets paris_window)
    by (unfold valid_offsets; cbn; lia).
  split; [reflexivity|]. split; [exact Hvalid|].
  pose proof (context_view_highlight (scripted_runtime failing_once) paris
                paris_window initial_world eq_refl) as H.
  cbv zeta in H. destruct H as [Hrun Hjoin]. split.
  - exact Hrun.
  - exact (Hjoin Hvalid).
Defined.

(** C5 as stated fails: with a span that has no context, the query
    raises [KeyError('context')] when the context loop reaches it, and
    the span after it gets no context view. *)
Lemma absent_context_is_not_skipped :
  fst (process (scripted_runtime (answering [paris_bare; paris]))
         tfidf capital_question None None initial_world)
  = Raise (KeyError "context")
  /\ stdout (snd (process (scripted_runtime (answering [paris_bare; paris]))
                    tfidf capital_question None None initial_world))
     = [PrintStr "Top Predictions:";
        PrintTable
          {| field_names := ["Rank"; "Answer"; "Doc"; "Answer Score"; "Doc Score"];
             rows := [[PyInt 1; PyStr "Paris"; PyStr "France";
                       PyStr "0.75"; PyStr "12.5"];
                      [PyInt 2; PyStr "Paris"; PyStr "France";
                       PyStr "0.75"; PyStr "12.5"]] |};
        PrintStr (newline +:+ "Contexts:")].
Proof. split; vm_compute; reflexivity. Qed.

(** C5, amended: the renderer has no case for a prediction without
    context.  Reaching such a span, the context loop raises
    [KeyError('context')]: the table (with a row for every span) and the
    views of the spans before it have been printed, no view is printed
    for it or for the spans after it. *)
Theorem absent_context_raises
    (rt : runtime) (retriever : retriever_choice)
    (question : pyval) (top_n n_docs : option pyval) (w : world)
    (before : list answer_span) (a : answer_span) (after : list answer_span) :
  backend_answer rt retriever question (default (PyInt 3) top_n)
    (default (PyInt (n_docs_default retriever)) n_docs) w
  = Ok (map prediction_of (before ++ a :: after)) ->
  Forall (fun b => is_Some (context b)) before ->
  context a = None ->
  let run := process rt retriever question top_n n_docs w in
  fst run = Raise (KeyError "context")
  /\ stdout (snd run)
     = stdout w
       ++ [PrintStr "Top Predictions:";
           PrintTable {| field_names := table_header;
                         rows := span_rows rt 1 (before ++ a :: after) |};
           PrintStr (newline +:+ "Contexts:")]
       ++ context_views rt before.
Proof.
  intros Hback Hbefore Ha run. subst run.
  rewrite process_run. cbv zeta. rewrite Hback.
  rewrite render_predictions_stop by assumption.
  split; reflexivity.
Qed.

Lemma absent_context_raises_witness :
  (Forall (fun b => is_Some (context b)) [paris] /\ context paris_bare = None)
  /\ fst (process (scripted_runtime (answering ([paris] ++ paris_bare :: [paris])))
            serini_bm25 capital_question None None initial_world)
     = Raise (KeyError "context")
  /\ stdout (snd (process
                    (scripted_runtime (answering ([paris] ++ paris_bare :: [paris])))
                    serini_bm25 capital_question None None initial_world))
     = [] ++ [PrintStr "Top Predictions:";
              PrintTable
                {| field_names := table_header;
                   rows := span_rows
                             (scripted_runtime
                                (answering ([paris] ++ paris_bare :: [paris])))
                             1 ([paris] ++ paris_bare :: [paris]) |};
              PrintStr (newline +:+ "Contexts:")]
        ++ context_views
             (scripted_runtime (answering ([paris] ++ paris_bare :: [paris])))
             [paris].
Proof.
  assert (Hbefore : Forall (fun b => is_Some (context b)) [paris])
    by (repeat constructor; now exists paris_window).
  split; [split; [exact Hbefore | reflexivity]|].
  exact (absent_context_raises
           (scripted_runtime (answering ([paris] ++ paris_bare :: [paris])))
           serini_bm25 capital_question None None initial_world
           [paris] paris_bare [paris] eq_refl Hbefore eq_refl).
Defined.

(* ===================================================================== *)
(** ** The console (C9) *)
(* ===================================================================== *)

(** C9 as stated fails: [colored], imported by the script, is a callable
    of the console's namespace besides [process] and [usage]. *)
Lemma console_exposes_other_callables :
  In "colored" exposed_callables
  /\ ~ (forall name, In name exposed_callables ->
                     name = "process" \/ name = "usage").
Proof.
  assert (Hin : In "colored" exposed_callables) by (cbv; tauto).
  split; [exact Hin|].
  intros Hall. destruct (Hall "colored" Hin) as [H|H]; discriminate H.
Qed.

(** C9, amended: the console is given the script's whole top-level
    namespace.  [process] and [usage] are the two functions the script
    defines (and the two its banner shows); the imported [colored],
    [DrQATransformers] and [PyseriniTransformersQA] are callable there
    too.  [usage()] prints the fixed banner, whatever the state. *)
Theorem console_commands :
  console_namespace = script_locals
  /\ defined_commands = ["process"; "usage"]
  /\ exposed_callables
     = ["colored"; "DrQATransformers"; "PyseriniTransformersQA";
        "process"; "usage"]
  /\ forall w, usage w = (Ok tt, emit [PrintStr banner] w).
Proof.
  split; [reflexivity|]. split; [reflexivity|]. split; [reflexivity|].
  intros w. reflexivity.
Qed.

(* ===================================================================== *)
(** ** Any predictions: the table loop *)
(* ===================================================================== *)

Lemma bind_lift {A B} (r : result A) (k : A -> Py.M B) (w : world) :
  Py.bind (Py.lift r) k w
  = match r with Ok a => k a w | Raise e => (Raise e, w) end.
Proof. unfold Py.bind, Py.lift. now destruct r. Qed.


Section TableLoop.

Variable rt : runtime.

Lemma add_prediction_row_row table i p w :
  add_prediction_row rt table (i, p) w
  = (match prediction_row rt i p with
     | Ok row => Ok (add_row table row)
     | Raise e => Raise e
     end, w).
Proof.
  unfold add_prediction_row, prediction_row. rewrite !bind_lift.
  destruct (getitem p "span"); [|reflexivity]. rewrite bind_lift.
  destruct (getitem p "doc_id"); [|reflexivity]. rewrite bind_lift.
  destruct (getitem p "span_score"); [|reflexivity]. rewrite bind_lift.
  destruct (percent_5g rt _); [|reflexivity]. rewrite bind_lift.
  destruct (getitem p "doc_score"); [|reflexivity]. rewrite bind_lift.
  destruct (percent_5g rt _); reflexivity.
Qed.

Lemma prediction_row_shape i p row :
  prediction_row rt i p = Ok row ->
  length row = 5%nat /\ row !! 0%nat = Some (PyInt i).
Proof.
  unfold prediction_row.
  repeat (match goal with
          | |- context [match ?r with Ok _ => _ | Raise _ => _ end] =>
              destruct r; try discriminate
          end).
  intros [= <-]. split; reflexivity.
Qed.

Lemma table_loop predictions : forall i table w,
  table_loop_outcome rt predictions i table w
    (Py.for_fold (enumerate predictions i) (add_prediction_row rt) table w).
Proof.
  induction predictions as [|p predictions IH]; intros i table w;
    cbn [Py.for_fold enumerate].
  - split; [reflexivity|]. cbn. split; [reflexivity|].
    exists []. rewrite app_nil_r. repeat split; try constructor.
    intros k q Hk. now rewrite lookup_nil in Hk.
  - unfold Py.bind at 1. rewrite add_prediction_row_row.
    destruct (prediction_row rt i p) as [row|e] eqn:Hrow.
    + destruct (IH (i + 1) (add_row table row) w) as [Hw Hout].
      destruct (prediction_row_shape i p row Hrow) as [Hlen Hrank].
      split; [exact Hw|].
      destruct (fst (Py.for_fold _ _ _ _)) as [table'|e].
      * destruct Hout as (Hfn & rs & Hrows & Hn & Hranks & Hfive & Hall).
        split; [exact Hfn|].
        exists (row :: rs). cbn [add_row rows] in Hrows.
        rewrite Hrows, <- app_assoc. split; [reflexivity|].
        split; [cbn [length]; now rewrite Hn|].
        split.
        { rewrite seqZ_cons by (cbn [length]; lia).
          replace (Z.pred (Z.of_nat (length (p :: predictions))))
            with (Z.of_nat (length predictions)) by (cbn [length]; lia).
          replace (Z.succ i) with (i + 1) by lia.
          cbn [map]. now rewrite Hrank, Hranks. }
        split; [now constructor|].
        intros [|k] q Hk; cbn in Hk.
        { injection Hk as <-. exists row. now rewrite Z.add_0_r. }
        destruct (Hall k q Hk) as [r Hr]. exists r.
        now replace (i + Z.of_nat (S k)) with (i + 1 + Z.of_nat k) by lia.
      * destruct Hout as (k & q & Hk & Hq).
        exists (S k), q. split; [exact Hk|].
        now replace (i + Z.of_nat (S k)) with (i + 1 + Z.of_nat k) by lia.
    + split; [reflexivity|]. exists 0%nat, p. split; [reflexivity|].
      now rewrite Z.add_0_r.
Qed.

End TableLoop.

(* ===================================================================== *)
(** ** Any predictions: the context loop *)
(* ===================================================================== *)

Section ContextLoop.

Variable rt : runtime.




Lemma view_lines_length pairs :
  length (view_lines pairs) = (2 * length pairs)%nat.
Proof.
  induction pairs as [|dv pairs IH]; [reflexivity|].
  unfold view_lines in *. cbn [flat_map app length]. rewrite IH. lia.
Qed.


End ContextLoop.

(* ===================================================================== *)
(** ** Any predictions: the whole rendering *)
(* ===================================================================== *)

Section AnyPredictions.

Variable rt : runtime.
Variable retriever : retriever_choice.

Lemma render_predictions_run predictions w :
  render_predictions rt predictions w
  = match Py.for_fold (enumerate predictions 1) (add_prediction_row rt)
            {| field_names := table_header; rows := [] |} w with
    | (Ok table, w1) =>
        Py.for_each predictions (render_context rt)
          (emit [PrintStr "Top Predictions:"; PrintTable table;
                 PrintStr (newline +:+ "Contexts:")] w1)
    | (Raise e, w1) => (Raise e, w1)
    end.
Proof.
  unfold render_predictions, Py.bind at 1.
  destruct (Py.for_fold _ _ _ _) as [[table|e] w1]; [|reflexivity].
  unfold Py.bind, print_str, print_table. now rewrite !emit_emit.
Qed.

(** When a row cannot be built, rendering raises before it has printed
    anything, and what it raises is the exception of a row. *)
Lemma render_predictions_bad_row predictions w (k : nat) p e :
  predictions !! k = Some p ->
  prediction_row rt (1 + Z.of_nat k) p = Raise e ->
  exists e' (k' : nat) p',
    render_predictions rt predictions w = (Raise e', w)
    /\ predictions !! k' = Some p'
    /\ prediction_row rt (1 + Z.of_nat k') p' = Raise e'.
Proof.
  intros Hk Hrow. rewrite render_predictions_run.
  pose proof (table_loop rt predictions 1
                {| field_names := table_header; rows := [] |} w) as [Hw Hout].
  destruct (Py.for_fold _ _ _ _) as [[table|e'] w1]; cbn [fst snd] in *; subst w1.
  - destruct Hout as (_ & rs & _ & _ & _ & _ & Hall).
    destruct (Hall k p Hk) as [row Hok]. congruence.
  - destruct Hout as (k' & p' & Hk' & Hrow'). now exists e', k', p'.
Qed.

End AnyPredictions.



(** X2: when some prediction lacks a field of the table row, or has a
    score that is no number, the query raises the exception of such a
    row, after the latency record and before any output: not even the
    heading or the rows of the predictions before it are printed. *)
Theorem bad_row_prints_nothing
    (rt : runtime) (retriever : retriever_choice)
    (question : pyval) (top_n n_docs : option pyval) (w : world)
    (predictions : list pyval) (k : nat) (p : pyval) (e : exn) :
  backend_answer rt retriever question (default (PyInt 3) top_n)
    (default (PyInt (n_docs_default retriever)) n_docs) w = Ok predictions ->
  predictions !! k = Some p ->
  prediction_row rt (1 + Z.of_nat k) p = Raise e ->
  let run := process rt retriever question top_n n_docs w in
  (exists e' (k' : nat) p',
     fst run = Raise e'
     /\ predictions !! k' = Some p'
     /\ prediction_row rt (1 + Z.of_nat k') p' = Raise e')
  /\ stdout (snd run) = stdout w
  /\ log (snd run) = log w ++ [latency_record rt w].
Proof.
  intros Hback Hk Hrow run. subst run. rewrite process_run. cbv zeta.
  rewrite Hback.
  destruct (render_predictions_bad_row rt predictions
              (after_latency_record rt question (default (PyInt 3) top_n)
                 (default (PyInt (n_docs_default retriever)) n_docs) w)
              k p e Hk Hrow) as (e' & k' & p' & -> & Hk' & Hrow').
  split; [now exists e', k', p' | split; reflexivity].
Qed.

Lemma bad_row_prints_nothing_witness :
  prediction_row (scripted_runtime (fun _ => Ok [prediction_of paris; no_doc_id]))
    (1 + Z.of_nat 1) no_doc_id = Raise (KeyError "doc_id")
  /\ (exists e',
        fst (process (scripted_runtime
                        (fun _ => Ok [prediction_of paris; no_doc_id]))
               serini_bm25 capital_question None None initial_world)
        = Raise e')
  /\ stdout (snd (process (scripted_runtime
                             (fun _ => Ok [prediction_of paris; no_doc_id]))
                    serini_bm25 capital_question None None initial_world)) = [].
Proof.
  assert (Hrow : prediction_row
                   (scripted_runtime (fun _ => Ok [prediction_of paris; no_doc_id]))
                   (1 + Z.of_nat 1) no_doc_id = Raise (KeyError "doc_id"))
    by (vm_compute; reflexivity).
  split; [exact Hrow|].
  destruct (bad_row_prints_nothing
              (scripted_runtime (fun _ => Ok [prediction_of paris; no_doc_id]))
              serini_bm25 capital_question None None initial_world
              [prediction_of paris; no_doc_id] 1%nat no_doc_id
              (KeyError "doc_id") eq_refl eq_refl Hrow)
    as ((e' & _ & _ & He & _) & Hout & _).
  split; [now exists e' | exact Hout].
Defined.

(* ===================================================================== *)
(** ** Offsets as Python reads them *)
(* ===================================================================== *)

Lemma str_length_app (s1 s2 : string) :
  String.length (s1 +:+ s2) = (String.length s1 + String.length s2)%nat.
Proof.
  induction s1 as [|c s1 IH]; [reflexivity|].
  change (S (String.length (s1 +:+ s2))
          = S (String.length s1 + String.length s2)).
  now rewrite IH.
Qed.

Lemma str_take_length (n : nat) (s : string) :
  String.length (str_take n s) = Nat.min n (String.length s).
Proof.
  revert s; induction n as [|n IH]; intros [|c s]; simpl; try reflexivity.
  now rewrite IH.
Qed.

Lemma adjust_index_range (len i : Z) :
  0 <= len -> 0 <= adjust_index len i <= len.
Proof.
  intros Hlen. unfold adjust_index. destruct (Z.ltb_spec i 0); lia.
Qed.

(** The three slices in terms of the adjusted positions. *)
Lemma py_slice_before (s : string) (i : Z) :
  py_slice s None (Some i)
  = str_take (Z.to_nat (adjust_index (Z.of_nat (String.length s)) i)) s.
Proof. unfold py_slice. now rewrite Z.sub_0_r. Qed.

Lemma py_slice_after (s : string) (j : Z) :
  py_slice s (Some j) None
  = str_drop (Z.to_nat (adjust_index (Z.of_nat (String.length s)) j)) s.
Proof.
  unfold py_slice.
  pose proof (adjust_index_range (Z.of_nat (String.length s)) j) as Hj.
  apply str_take_all. rewrite str_drop_length. lia.
Qed.

(** Offsets that do not cross once adjusted: the slices partition the
    text. *)
Lemma py_slice_partition_adjusted (s : string) (i j : Z) :
  adjust_index (Z.of_nat (String.length s)) i
  <= adjust_index (Z.of_nat (String.length s)) j ->
  py_slice s None (Some i) +:+ py_slice s (Some i) (Some j)
    +:+ py_slice s (Some j) None = s.
Proof.
  intros Hij. rewrite py_slice_before, py_slice_after. unfold py_slice.
  set (len := Z.of_nat (String.length s)) in *.
  pose proof (adjust_index_range len i ltac:(lia)) as Hi.
  pose proof (adjust_index_range len j ltac:(lia)) as Hj.
  set (a := adjust_index len i) in *. set (b := adjust_index len j) in *.
  replace (Z.to_nat b) with (Z.to_nat a + Z.to_nat (b - a))%nat by lia.
  rewrite <- str_drop_drop. rewrite str_take_drop. apply str_take_drop.
Qed.

(** Offsets that cross once adjusted: nothing lies between them. *)
Lemma py_slice_crossed (s : string) (i j : Z) :
  adjust_index (Z.of_nat (String.length s)) j
  < adjust_index (Z.of_nat (String.length s)) i ->
  py_slice s (Some i) (Some j) = "".
Proof.
  intros Hji. unfold py_slice.
  now replace (Z.to_nat (_ - _)) with 0%nat by lia.
Qed.

(** X4: the offsets of a context are read as Python reads slice bounds:
    a negative offset counts from the end of the text and an offset
    past the end stops at the end.  Whenever the start so read is not
    after the end so read, the line printed is the text with exactly
    the characters between the two positions styled: the three parts
    joined are the text, and the styled part has end - start characters. *)
Theorem highlight_with_python_offsets
    (rt : runtime) (a : answer_span) (c : context_window) (w : world) :
  context a = Some c ->
  let text := ctx_text c in
  let len := Z.of_nat (String.length text) in
  let before := py_slice text None (Some (ctx_start c)) in
  let answer := py_slice text (Some (ctx_start c)) (Some (ctx_end c)) in
  let after := py_slice text (Some (ctx_end c)) None in
  adjust_index len (ctx_start c) <= adjust_index len (ctx_end c) ->
  render_context rt (prediction_of a) w
  = (Ok tt,
     emit [PrintStr ("[ Doc = " +:+ percent_s rt (doc_id a) +:+ " ]");
           PrintStr ((before +:+ colored rt answer "green" ["bold"] +:+ after)
                     +:+ newline)] w)
  /\ before +:+ answer +:+ after = text
  /\ Z.of_nat (String.length answer)
     = adjust_index len (ctx_end c) - adjust_index len (ctx_start c).
Proof.
  intros Hc text len before answer after Hle.
  split; [now rewrite (render_context_present rt a c w Hc)|].
  split; [now apply py_slice_partition_adjusted|].
  subst answer. unfold py_slice. fold text. fold len.
  pose proof (adjust_index_range len (ctx_start c) ltac:(lia)) as Hs.
  pose proof (adjust_index_range len (ctx_end c) ltac:(lia)) as He.
  rewrite str_take_length, str_drop_length. lia.
Qed.

Lemma highlight_with_python_offsets_witness :
  context paris_from_end
  = Some {| ctx_text := "The capital of France is Paris.";
            ctx_start := -6; ctx_end := -1 |}
  /\ adjust_index 31 (-6) <= adjust_index 31 (-1)
  /\ py_slice "The capital of France is Paris." (Some (-6)) (Some (-1)) = "Paris"
  /\ py_slice "The capital of France is Paris." None (Some (-6))
     +:+ py_slice "The capital of France is Paris." (Some (-6)) (Some (-1))
     +:+ py_slice "The capital of France is Paris." (Some (-1)) None
     = "The capital of France is Paris.".
Proof.
  assert (Hle : adjust_index 31 (-6) <= adjust_index 31 (-1))
    by (vm_compute; discriminate).
  split; [reflexivity|]. split; [exact Hle|]. split; [reflexivity|].
  pose proof (highlight_with_python_offsets (scripted_runtime failing_once)
                paris_from_end
                {| ctx_text := "The capital of France is Paris.";
                   ctx_start := -6; ctx_end := -1 |}
                initial_world eq_refl) as H.
  cbv zeta in H. destruct (H Hle) as (_ & Hjoin & _). exact Hjoin.
Defined.

(** X5: when the start, read as Python reads it, is after the end, no
    exception is raised: nothing is styled ([colored] gets the empty
    string), and the text from the end position to the start position
    is printed twice, so the line without its styling is longer than
    the text by start - end characters. *)
Theorem crossed_offsets_repeat_text
    (rt : runtime) (a : answer_span) (c : context_window) (w : world) :
  context a = Some c ->
  let text := ctx_text c in
  let len := Z.of_nat (String.length text) in
  let before := py_slice text None (Some (ctx_start c)) in
  let after := py_slice text (Some (ctx_end c)) None in
  adjust_index len (ctx_end c) < adjust_index len (ctx_start c) ->
  render_context rt (prediction_of a) w
  = (Ok tt,
     emit [PrintStr ("[ Doc = " +:+ percent_s rt (doc_id a) +:+ " ]");
           PrintStr ((before +:+ colored rt "" "green" ["bold"] +:+ after)
                     +:+ newline)] w)
  /\ Z.of_nat (String.length (before +:+ after))
     = len + (adjust_index len (ctx_start c) - adjust_index len (ctx_end c)).
Proof.
  intros Hc text len before after Hlt. split.
  - rewrite (render_context_present rt a c w Hc). unfold context_view.
    fold text. fold before. fold after.
    now rewrite (py_slice_crossed text (ctx_start c) (ctx_end c) Hlt).
  - subst before after. rewrite py_slice_before, py_slice_after.
    fold len.
    pose proof (adjust_index_range len (ctx_start c) ltac:(lia)) as Hs.
    pose proof (adjust_index_range len (ctx_end c) ltac:(lia)) as He.
    rewrite str_length_app, str_take_length, str_drop_length. lia.
Qed.

Lemma crossed_offsets_repeat_text_witness :
  context paris_crossed
  = Some {| ctx_text := "The capital of France is Paris.";
            ctx_start := 30; ctx_end := 25 |}
  /\ adjust_index 31 25 < adjust_index 31 30
  /\ render_context (scripted_runtime failing_once)
       (prediction_of paris_crossed) initial_world
     = (Ok tt,
        emit [PrintStr "[ Doc = France ]";
              PrintStr (("The capital of France is Paris"
                         +:+ ansi_colored "" "green" ["bold"]
                         +:+ "Paris.") +:+ newline)] initial_world).
Proof.
  assert (Hlt : adjust_index 31 25 < adjust_index 31 30) by reflexivity.
  split; [reflexivity|]. split; [exact Hlt|].
  pose proof (crossed_offsets_repeat_text (scripted_runtime failing_once)
                paris_crossed
                {| ctx_text := "The capital of France is Paris.";
                   ctx_start := 30; ctx_end := 25 |}
                initial_world eq_refl) as H.
  cbv zeta in H. destruct (H Hlt) as [Hrun _]. exact Hrun.
Defined.

(* ===================================================================== *)
(** ** Queries in succession *)
(* ===================================================================== *)

Lemma run_queries_cons rt retriever q qs w :
  run_queries rt retriever (q :: qs) w
  = run_queries rt retriever qs
      (snd (process rt retriever (query_question q) (query_top_n q)
              (query_n_docs q) w)).
Proof. reflexivity. Qed.

(** X6: queries issued one after the other, whatever each returns or
    raises, make exactly one backend call each, in the order issued,
    each with the query's arguments (defaults filled in) and
    [return_context = True]: the calls on record say so; what the
    backend would answer to [return_context=False] never matters to the
    session; and the query issued after [qs] is decided by the answer
    of [pipeline.process] to its call number [length qs] (counted from
    the session's start), handed [return_context=True]. *)
Theorem queries_call_backend_once_each
    (rt : runtime) (retriever : retriever_choice)
    (qs : list query) (q : query) (w : world) :
  backend_calls (run_queries rt retriever qs w)
  = backend_calls w ++ map (call_of retriever) qs
  /\ (forall other,
        run_queries (with_answers_without_context rt other) retriever qs w
        = run_queries rt retriever qs w)
  /\ let w' := run_queries rt retriever qs w in
     let tn := default (PyInt 3) (query_top_n q) in
     let nd := default (PyInt (n_docs_default retriever)) (query_n_docs q) in
     match pipeline_process rt (pipeline_of retriever)
             (length (backend_calls w) + length qs)%nat
             (query_question q) tn nd true with
     | Raise e =>
         process rt retriever (query_question q) (query_top_n q)
           (query_n_docs q) w'
         = (Raise e, after_backend_call (query_question q) tn nd w')
     | Ok predictions =>
         process rt retriever (query_question q) (query_top_n q)
           (query_n_docs q) w'
         = render_predictions rt predictions
             (after_latency_record rt (query_question q) tn nd w')
     end.
Proof.
  assert (Hcalls : forall w0,
            backend_calls (run_queries rt retriever qs w0)
            = backend_calls w0 ++ map (call_of retriever) qs).
  { induction qs as [|q0 qs0 IH]; intros w0.
    - cbn. now rewrite app_nil_r.
    - rewrite run_queries_cons, IH, process_backend_calls, <- app_assoc.
      reflexivity. }
  split; [apply Hcalls|]. split.
  - intros other. clear Hcalls. revert w.
    induction qs as [|q0 qs0 IH]; intros w; [reflexivity|].
    rewrite !run_queries_cons, process_ignores_answers_without_context.
    apply IH.
  - intros w' tn nd.
    pose proof (process_run rt retriever (query_question q) (query_top_n q)
                  (query_n_docs q) w') as Hrun.
    cbv zeta in Hrun. unfold backend_answer in Hrun. fold tn nd in Hrun.
    replace (length (backend_calls w'))
      with (length (backend_calls w) + length qs)%nat in Hrun
      by (subst w'; now rewrite Hcalls, length_app, length_map).
    destruct (pipeline_process rt _ _ _ _ _ _); exact Hrun.
Qed.

(** X7: a query never rewrites what is already there: the display and
    the log after it are the display and the log before it with
    something appended, at most one record in the case of the log.  The
    clock has been read twice when the backend returned and once when
    it raised. *)
Theorem process_only_appends
    (rt : runtime) (retriever : retriever_choice)
    (question : pyval) (top_n n_docs : option pyval) (w : world) :
  let run := process rt retriever question top_n n_docs w in
  (exists output, stdout (snd run) = stdout w ++ output)
  /\ (exists records, log (snd run) = log w ++ records
                      /\ (length records <= 1)%nat)
  /\ clock_reads (snd run)
     = match backend_answer rt retriever question (default (PyInt 3) top_n)
               (default (PyInt (n_docs_default retriever)) n_docs) w with
       | Ok _ => S (S (clock_reads w))
       | Raise _ => S (clock_reads w)
       end.
Proof.
  intros run. subst run. rewrite process_run. cbv zeta.
  destruct (backend_answer _ _ _ _ _ _) as [predictions|e].
  - destruct (prints_only_render_predictions rt predictions
                (after_latency_record rt question (default (PyInt 3) top_n)
                   (default (PyInt (n_docs_default retriever)) n_docs) w))
      as [items ->].
    split; [now exists items|]. split; [|reflexivity].
    exists [latency_record rt w]. split; [reflexivity | cbn; lia].
  - split; [exists []; cbn; now rewrite app_nil_r|]. split; [|reflexivity].
    exists []. split; [cbn; now rewrite app_nil_r | cbn; lia].
Qed.

(* ===================================================================== *)
(** ** Start-up *)
(* ===================================================================== *)

(** Start-up, outcome by outcome. *)
Lemma startup_run env a w :
  startup env a w
  = let cuda := negb (args_no_cuda a) && cuda_is_available env in
    let cuda_record :=
      if cuda then "CUDA enabled (GPU " +:+ pretty (args_gpu a) +:+ ")"
      else "Running on CPU only." in
    let w2 := snd (logger_info "Initializing pipeline..."
                     (snd (logger_info cuda_record w))) in
    match (if cuda then set_device env (args_gpu a) else Ok tt) with
    | Raise e => (Raise e, w)
    | Ok _ =>
        match args_retriever a with
        | tfidf =>
            match new_DrQATransformers env (drqa_kwargs_of a cuda) with
            | Raise e => (Raise e, w2)
            | Ok _ =>
                (Ok {| setup_cuda := cuda;
                       setup_device := if cuda then Some (args_gpu a) else None;
                       setup_pipeline :=
                         NewDrQATransformers (drqa_kwargs_of a cuda);
                       setup_n_docs_default := 5 |}, w2)
            end
        | serini_bm25 =>
            match new_PyseriniTransformersQA env (pyserini_kwargs_of a cuda) with
            | Raise e => (Raise e, w2)
            | Ok _ =>
                (Ok {| setup_cuda := cuda;
                       setup_device := if cuda then Some (args_gpu a) else None;
                       setup_pipeline :=
                         NewPyseriniTransformersQA (pyserini_kwargs_of a cuda);
                       setup_n_docs_default := 30 |}, w2)
            end
        end
    end.
Proof.
  unfold startup. cbv zeta.
  destruct (negb (args_no_cuda a) && cuda_is_available env).
  - unfold Py.bind at 1. unfold Py.bind at 2. rewrite bind_lift.
    destruct (set_device env (args_gpu a)) as [[]|e]; [|reflexivity].
    unfold Py.bind, Py.lift, Py.ret, logger_info.
    destruct (args_retriever a);
      [destruct (new_DrQATransformers env _) as [[]|e]
      |destruct (new_PyseriniTransformersQA env _) as [[]|e]]; reflexivity.
  - unfold Py.bind, Py.lift, Py.ret, logger_info.
    destruct (args_retriever a);
      [destruct (new_DrQATransformers env _) as [[]|e]
      |destruct (new_PyseriniTransformersQA env _) as [[]|e]]; reflexivity.
Qed.

Lemma parse_args_no_cuda cl : args_no_cuda (parse_args cl) = given_no_cuda cl.
Proof. unfold parse_args; cbn. now destruct (given_no_cuda cl). Qed.

Lemma parse_args_gpu cl : args_gpu (parse_args cl) = default (-1) (given_gpu cl).
Proof. reflexivity. Qed.

Lemma parse_args_retriever cl :
  args_retriever (parse_args cl) = default serini_bm25 (given_retriever cl).
Proof. reflexivity. Qed.

(** X8: when start-up returns, what it did about CUDA is of one piece:
    CUDA is used exactly when [--no-cuda] is absent and CUDA is
    available; the pipeline of either class was then constructed with
    [cuda=True], the device [args.gpu] was selected (and
    [torch.cuda.set_device] returned) and the log says so; otherwise
    the pipeline got [cuda=False], no device was selected and the log
    says CPU only.  The last record logged is 'Initializing pipeline...'. *)
Theorem startup_cuda_consistent
    (env : platform) (cl : command_line) (w : world) (s : session_setup) :
  fst (startup env (parse_args cl) w) = Ok s ->
  setup_cuda s = negb (given_no_cuda cl) && cuda_is_available env
  /\ pipeline_cuda (setup_pipeline s) = setup_cuda s
  /\ setup_device s
     = (if setup_cuda s then Some (default (-1) (given_gpu cl)) else None)
  /\ (setup_cuda s = true
      -> set_device env (default (-1) (given_gpu cl)) = Ok tt)
  /\ log (snd (startup env (parse_args cl) w))
     = log w
       ++ [if setup_cuda s
           then "CUDA enabled (GPU "
                +:+ pretty (default (-1) (given_gpu cl)) +:+ ")"
           else "Running on CPU only.";
           "Initializing pipeline..."].
Proof.
  rewrite startup_run. cbv zeta.
  rewrite (parse_args_no_cuda cl), (parse_args_gpu cl), (parse_args_retriever cl).
  destruct (negb (given_no_cuda cl) && cuda_is_available env) eqn:Hcuda.
  - destruct (set_device env (default (-1) (given_gpu cl))) as [[]|e] eqn:Hdev;
      [|discriminate].
    destruct (default serini_bm25 (given_retriever cl));
      [destruct (new_DrQATransformers env _) as [[]|e]
      |destruct (new_PyseriniTransformersQA env _) as [[]|e]];
      try discriminate; intros [= <-]; cbn; rewrite <- ?app_assoc;
      repeat split.
  - destruct (default serini_bm25 (given_retriever cl));
      [destruct (new_DrQATransformers env _) as [[]|e]
      |destruct (new_PyseriniTransformersQA env _) as [[]|e]];
      try discriminate; intros [= <-]; cbn; rewrite <- ?app_assoc;
      repeat split; discriminate.
Qed.

Lemma startup_cuda_consistent_witness :
  exists s,
    fst (startup ready_platform (parse_args bare_command_line) initial_world)
    = Ok s
    /\ setup_cuda s = true
    /\ pipeline_cuda (setup_pipeline s) = true
    /\ setup_device s = Some (-1)
    /\ log (snd (startup ready_platform (parse_args bare_command_line)
                   initial_world))
       = ["CUDA enabled (GPU -1)"; "Initializing pipeline..."].
Proof.
  eexists. split; [reflexivity|].
  pose proof (startup_cuda_consistent ready_platform bare_command_line
                initial_world _ eq_refl) as (Hc & Hp & Hd & _ & Hl).
  split; [exact Hc|]. split; [now rewrite Hp, Hc|].
  split; [now rewrite Hd, Hc|]. rewrite Hl, Hc. reflexivity.
Defined.

(** X9: each retriever ignores the other's options.  With [tfidf] the
    values of [--index-path] and [--index-lan] change nothing of what
    start-up does and constructs; with [serini-bm25] the values of
    [--retriever-model], [--group-length] and [--doc-db] change nothing. *)
Theorem startup_ignores_other_retriever_options
    (env : platform) (a : args) (w : world)
    (path lan model db : option string) (group : Z) :
  match args_retriever a with
  | tfidf =>
      startup env (with_index_options path lan a) w = startup env a w
  | serini_bm25 =>
      startup env (with_tfidf_options model group db a) w = startup env a w
  end.
Proof.
  destruct (args_retriever a) eqn:Hr; unfold startup;
    unfold drqa_kwargs_of, pyserini_kwargs_of;
    cbn [with_index_options with_tfidf_options args_retriever args_no_cuda
         args_gpu args_reader_model args_use_fast_tokenizer args_index_path
         args_index_lan args_retriever_model args_group_length args_doc_db
         args_num_workers args_batch_size];
    rewrite Hr; reflexivity.
Qed.

(** X10: [--use-fast-tokenizer] is a [store_true] flag whose default is
    [True]: given or not, with either retriever, the constructor is
    called with [use_fast_tokenizer=True].  So what the constructors
    would do with [False] has no bearing on start-up, and a pipeline
    that was constructed has the fast tokenizer on. *)
Theorem fast_tokenizer_always_on
    (env env' : platform) (cl : command_line) (w : world) :
  cuda_is_available env = cuda_is_available env' ->
  (forall device, set_device env device = set_device env' device) ->
  (forall kw, drqa_use_fast_tokenizer kw = true ->
              new_DrQATransformers env kw = new_DrQATransformers env' kw) ->
  (forall kw, pyserini_use_fast_tokenizer kw = true ->
              new_PyseriniTransformersQA env kw
              = new_PyseriniTransformersQA env' kw) ->
  startup env (parse_args cl) w = startup env' (parse_args cl) w
  /\ forall s, fst (startup env (parse_args cl) w) = Ok s ->
               pipeline_use_fast_tokenizer (setup_pipeline s) = true.
Proof.
  intros Hcuda Hdev Hdrqa Hpys.
  assert (Hfast : args_use_fast_tokenizer (parse_args cl) = true)
    by (unfold parse_args; cbn; now destruct (given_use_fast_tokenizer cl)).
  split.
  - rewrite !startup_run. cbv zeta. rewrite <- Hcuda, <- Hdev.
    rewrite <- (Hdrqa (drqa_kwargs_of (parse_args cl) _)) by exact Hfast.
    rewrite <- (Hpys (pyserini_kwargs_of (parse_args cl) _)) by exact Hfast.
    reflexivity.
  - intros s. rewrite startup_run. cbv zeta.
    destruct (if negb _ && _ then _ else _) as [[]|e]; [|discriminate].
    destruct (args_retriever (parse_args cl));
      [destruct (new_DrQATransformers env _) as [[]|e]
      |destruct (new_PyseriniTransformersQA env _) as [[]|e]];
      try discriminate; intros [= <-]; exact Hfast.
Qed.

Lemma fast_tokenizer_always_on_witness :
  startup ready_platform (parse_args bare_command_line) initial_world
  = startup fast_only_platform (parse_args bare_command_line) initial_world
  /\ forall s,
       fst (startup ready_platform (parse_args bare_command_line) initial_world)
       = Ok s ->
       pipeline_use_fast_tokenizer (setup_pipeline s) = true.
Proof.
  apply (fast_tokenizer_always_on ready_platform fast_only_platform
           bare_command_line initial_world).
  - reflexivity.
  - intros device. reflexivity.
  - intros kw Hkw. cbn. now rewrite Hkw.
  - intros kw Hkw. cbn. now rewrite Hkw.
Defined.

(** X11: when start-up returns, the pipeline it constructed and the
    default number of documents go together as the query command
    assumes: [DrQATransformers] with 5 for [tfidf],
    [PyseriniTransformersQA] with 30 for [serini-bm25]; a command line
    without [--retriever] gives the latter. *)
Theorem startup_pipeline_and_default
    (env : platform) (cl : command_line) (w : world) (s : session_setup) :
  fst (startup env (parse_args cl) w) = Ok s ->
  class_of (setup_pipeline s)
  = pipeline_of (default serini_bm25 (given_retriever cl))
  /\ setup_n_docs_default s
     = n_docs_default (default serini_bm25 (given_retriever cl))
  /\ (given_retriever cl = None ->
      class_of (setup_pipeline s) = PyseriniTransformersQA
      /\ setup_n_docs_default s = 30).
Proof.
  rewrite startup_run. cbv zeta.
  destruct (if negb _ && _ then _ else _) as [[]|e]; [|discriminate].
  unfold parse_args at 1. cbn [args_retriever].
  destruct (given_retriever cl) as [[|]|]; cbn [default];
    [destruct (new_DrQATransformers env _) as [[]|e]
    |destruct (new_PyseriniTransformersQA env _) as [[]|e]
    |destruct (new_PyseriniTransformersQA env _) as [[]|e]];
    try discriminate; intros [= <-]; cbn; repeat split; discriminate.
Qed.

Lemma startup_pipeline_and_default_witness :
  exists s,
    fst (startup ready_platform (parse_args bare_command_line) initial_world)
    = Ok s
    /\ class_of (setup_pipeline s) = PyseriniTransformersQA
    /\ setup_n_docs_default s = 30.
Proof.
  eexists. split; [reflexivity|].
  pose proof (startup_pipeline_and_default ready_platform bare_command_line
                initial_world _ eq_refl) as (_ & _ & Hnone).
  exact (Hnone eq_refl).
Defined.

(** X13: when CUDA is to be used and [torch.cuda.set_device] raises,
    start-up raises that exception at once: nothing has been logged,
    and no constructor is called (whatever the constructors would do,
    the outcome is the same). *)
Theorem startup_device_failure
    (env : platform) (a : args) (w : world) (e : exn) :
  args_no_cuda a = false ->
  cuda_is_available env = true ->
  set_device env (args_gpu a) = Raise e ->
  startup env a w = (Raise e, w)
  /\ forall drqa pyserini,
       startup {| cuda_is_available := cuda_is_available env;
                  set_device := set_device env;
                  new_DrQATransformers := drqa;
                  new_PyseriniTransformersQA := pyserini |} a w
       = (Raise e, w).
Proof.
  intros Hno Hav Hdev. split; [|intros drqa pyserini];
    rewrite startup_run; cbv zeta;
    cbn [cuda_is_available set_device]; now rewrite Hno, Hav, Hdev.
Qed.

Lemma startup_device_failure_witness :
  startup broken_device_platform (parse_args bare_command_line) initial_world
  = (Raise (Exception "RuntimeError"), initial_world).
Proof.
  exact (proj1 (startup_device_failure broken_device_platform
                  (parse_args bare_command_line) initial_world
                  (Exception "RuntimeError") eq_refl eq_refl eq_refl)).
Defined.

(** X14: when the constructor of the chosen pipeline raises, start-up
    raises that exception after both of its log records, the CUDA
    record and 'Initializing pipeline...', and leaves no pipeline and
    no default behind. *)
Theorem startup_constructor_failure
    (env : platform) (a : args) (w : world) (e : exn) :
  let cuda := negb (args_no_cuda a) && cuda_is_available env in
  (cuda = true -> set_device env (args_gpu a) = Ok tt) ->
  match args_retriever a with
  | tfidf => new_DrQATransformers env (drqa_kwargs_of a cuda) = Raise e
  | serini_bm25 =>
      new_PyseriniTransformersQA env (pyserini_kwargs_of a cuda) = Raise e
  end ->
  fst (startup env a w) = Raise e
  /\ log (snd (startup env a w))
     = log w
       ++ [if cuda
           then "CUDA enabled (GPU " +:+ pretty (args_gpu a) +:+ ")"
           else "Running on CPU only.";
           "Initializing pipeline..."].
Proof.
  intros cuda Hdev Hnew. rewrite startup_run. cbv zeta. fold cuda.
  destruct cuda eqn:Hcuda.
  - rewrite (Hdev eq_refl).
    destruct (args_retriever a); rewrite Hnew; cbn; rewrite <- app_assoc;
      split; reflexivity.
  - destruct (args_retriever a); rewrite Hnew; cbn; rewrite <- app_assoc;
      split; reflexivity.
Qed.

Lemma startup_constructor_failure_witness :
  fst (startup no_pipeline_platform (parse_args bare_command_line) initial_world)
  = Raise (Exception "RuntimeError")
  /\ log (snd (startup no_pipeline_platform (parse_args bare_command_line)
                 initial_world))
     = [] ++ ["Running on CPU only."; "Initializing pipeline..."].
Proof.
  apply (startup_constructor_failure no_pipeline_platform
           (parse_args bare_command_line) initial_world
           (Exception "RuntimeError")).
  - intros H. discriminate H.
  - reflexivity.
Defined.
